(** * Book inventory: the record store and the update engine

    A shallow embedding of [inventory_manager.py]: the [BookDatabase] class
    (a SQLite table [books] behind a connection) and the part of the
    [BookManager] class that adds, edits and deletes records.

    Modelling decisions, all taken from the source:
    - the table [books] has [id INTEGER PRIMARY KEY], so it is a finite map
      from ids to the six remaining columns;
    - a connection holds the committed table and, while a transaction is
      open, the working copy that statements read and write.  The Python
      [sqlite3] module opens a transaction implicitly before an INSERT,
      UPDATE or DELETE, [commit()] publishes the working copy and
      [rollback()] drops it;
    - [datetime.now().isoformat()] is the argument [now];
    - a statement can be refused by the engine (database locked, disk
      error): the flag [fault] of a statement says that it raises
      [sqlite3.Error] without touching any row;
    - text is Latin-1: a character of a [string] is a code point below 256,
      not a byte of an encoding (the capital E with an acute accent is the
      one character 201).  Python's [str.lower] and [str.strip] know the accented capitals, the
      no-break space and the next-line character; SQLite's [lower()] and
      [LIKE] fold the ASCII letters only.  The two lower-casings are two
      functions here, [Text.py_lower] and [Text.lower];
    - numbers are the values that can be stored: an integer is bound to a
      statement only if it fits SQLite's 64-bit INTEGER (the [sqlite3]
      module raises OverflowError otherwise, before the statement runs), and
      a price is a finite number ([float] also reads "nan" and "inf").
      Theorems about numbers the operator types carry the 64-bit bound as a
      hypothesis;
    - [Prompt.ask] is the boundary with the operator: text prompts give the
      raw text, numeric prompts give the parsed reading of what was typed;
    - [console.print] appends a message to the console of the world. *)

From Stdlib Require Import ZArith QArith Lia Ascii String.
From stdpp Require Import base option list strings gmap fin_maps.

Local Open Scope string_scope.
Local Open Scope Z_scope.

(** ** Text helpers: [str.lower], [str.strip], SQL [LIKE] *)

Module Text.

(** SQLite's [lower()]: the letters A to Z, and no other character. *)
Definition lower_char (a : ascii) : ascii :=
  let n := N_of_ascii a in
  if ((65 <=? n) && (n <=? 90))%N then ascii_of_N (n + 32) else a.

Fixpoint lower (s : string) : string :=
  match s with
  | EmptyString => EmptyString
  | String a s' => String (lower_char a) (lower s')
  end.

(** Python's [str.lower]: the letters A to Z and the accented capitals of
    Latin-1, 192 to 222 without the multiplication sign 215. *)
Definition py_lower_char (a : ascii) : ascii :=
  let n := N_of_ascii a in
  if (((65 <=? n) && (n <=? 90))
      || ((192 <=? n) && (n <=? 222) && negb (n =? 215)))%N
  then ascii_of_N (n + 32) else a.

Fixpoint py_lower (s : string) : string :=
  match s with
  | EmptyString => EmptyString
  | String a s' => String (py_lower_char a) (py_lower s')
  end.

(** [str.isspace]: tab, newline, vertical tab, form feed, carriage return,
    the four separators 28..31, the blank, the next-line character 133 and
    the no-break space 160. *)
Definition is_space (a : ascii) : bool :=
  let n := N_of_ascii a in
  (((9 <=? n) && (n <=? 13)) || ((28 <=? n) && (n <=? 32))
   || (n =? 133) || (n =? 160))%N.

Fixpoint lstrip (s : string) : string :=
  match s with
  | EmptyString => EmptyString
  | String a s' => if is_space a then lstrip s' else s
  end.

Fixpoint rstrip (s : string) : string :=
  match s with
  | EmptyString => EmptyString
  | String a s' =>
      match rstrip s' with
      | EmptyString =>
          if is_space a then EmptyString else String a EmptyString
      | r => String a r
      end
  end.

Definition strip (s : string) : string := rstrip (lstrip s).

(** [s.lower() == "x"]: the operator asks to skip or cancel. *)
Definition is_x (s : string) : bool := bool_decide (py_lower s = "x").

(** SQLite's [LIKE]: [%] stands for any run of characters, [_] for one
    character, letters compare without case. *)
Fixpoint like (p s : string) : bool :=
  match p with
  | EmptyString => bool_decide (s = EmptyString)
  | String c p' =>
      if bool_decide (c = "%"%char) then
        (fix any (s : string) : bool :=
           like p' s ||
           match s with
           | EmptyString => false
           | String _ s' => any s'
           end) s
      else
        match s with
        | EmptyString => false
        | String d s' =>
            (bool_decide (c = "_"%char)
             || bool_decide (lower_char c = lower_char d))
            && like p' s'
        end
  end.

End Text.

(** ** Data *)

Definition Timestamp := string.

(** The columns of a row besides the primary key. *)
Record Row := mkRow {
  title : string;
  author : string;
  quantity : Z;
  price : Q;
  date_added : Timestamp;
  last_updated : Timestamp
}.

(** The dictionary [_row_to_dict] builds, and callers hold as a snapshot. *)
Record Book := mkBook {
  bk_id : Z;
  bk_title : string;
  bk_author : string;
  bk_quantity : Z;
  bk_price : Q;
  bk_date_added : Timestamp;
  bk_last_updated : Timestamp
}.

(** The dictionary [data] given to [BookDatabase.add_book]. *)
Record BookData := mkData {
  d_id : Z;
  d_title : string;
  d_author : string;
  d_quantity : Z;
  d_price : Q
}.

(** The dictionary [updates]: a key is present when its option is [Some]. *)
Record Updates := mkUpdates {
  u_id : option Z;
  u_title : option string;
  u_author : option string;
  u_quantity : option Z;
  u_price : option Q
}.

Definition no_updates : Updates := mkUpdates None None None None None.

(** [not updates]: the dictionary has no key. *)
Definition is_empty (u : Updates) : bool :=
  match u with
  | mkUpdates None None None None None => true
  | _ => false
  end.

Definition set_id (v : Z) (u : Updates) : Updates :=
  mkUpdates (Some v) (u_title u) (u_author u) (u_quantity u) (u_price u).
Definition set_title (v : string) (u : Updates) : Updates :=
  mkUpdates (u_id u) (Some v) (u_author u) (u_quantity u) (u_price u).
Definition set_author (v : string) (u : Updates) : Updates :=
  mkUpdates (u_id u) (u_title u) (Some v) (u_quantity u) (u_price u).
Definition set_quantity (v : Z) (u : Updates) : Updates :=
  mkUpdates (u_id u) (u_title u) (u_author u) (Some v) (u_price u).
Definition set_price (v : Q) (u : Updates) : Updates :=
  mkUpdates (u_id u) (u_title u) (u_author u) (u_quantity u) (Some v).

(** The filters of [search_books], one option per recognised keyword. *)
Record Filters := mkFilters {
  f_title : option string;
  f_author : option string;
  f_id : option Z;
  f_max_price : option Q;
  f_min_price : option Q;
  f_min_stock : option Z
}.

Definition no_filters : Filters := mkFilters None None None None None None.

Inductive SqlError :=
  | IntegrityError      (* a PRIMARY KEY clash *)
  | OperationalError    (* a statement the engine cannot run now *)
  | EngineFault.        (* the injected failure of a statement *)

(** The result of a call that lets [sqlite3.Error] escape. *)
Inductive Exc (A : Type) :=
  | Ok (a : A)
  | Raise (e : SqlError).
Arguments Ok {A} a.
Arguments Raise {A} e.

(** ** The connection *)

Record Conn := mkConn {
  committed : gmap Z Row;
  pending : option (gmap Z Row)
}.

(** The table as statements of this connection see it. *)
Definition view (c : Conn) : gmap Z Row := default (committed c) (pending c).

Definition idle (c : Conn) : Prop := pending c = None.

Definition open_conn (t : gmap Z Row) : Conn := mkConn t None.

(** The implicit BEGIN of the [sqlite3] module before a data statement. *)
Definition implicit_begin (c : Conn) : Conn :=
  match pending c with
  | Some _ => c
  | None => mkConn (committed c) (Some (committed c))
  end.

(** [conn.execute("BEGIN TRANSACTION")]: refused inside a transaction. *)
Definition begin_transaction (c : Conn) : Exc unit * Conn :=
  match pending c with
  | Some _ => (Raise OperationalError, c)
  | None => (Ok tt, mkConn (committed c) (Some (committed c)))
  end.

Definition write (t : gmap Z Row) (c : Conn) : Conn :=
  mkConn (committed c) (Some t).

Definition commit (c : Conn) : Conn := mkConn (view c) None.

Definition rollback (c : Conn) : Conn := mkConn (committed c) None.

(** ** class BookDatabase *)

Module BookDatabase.

Definition _row_to_dict (i : Z) (r : Row) : Book :=
  mkBook i (title r) (author r) (quantity r) (price r)
         (date_added r) (last_updated r).

(** The sample rows of [_setup]. *)
Definition books : list BookData :=
  [ mkData 3001 "A Tale of Two Cities" "Charles Dickens" 30 (1999 # 100);
    mkData 3002 "Harry Potter" "J.K. Rowling" 40 (2499 # 100);
    mkData 3003 "The Lion, the Witch and the Wardrobe" "C.S. Lewis" 25
      (1795 # 100);
    mkData 3004 "The Lord of the Rings" "J.R.R. Tolkien" 37 (2999 # 100);
    mkData 3005 "Alice in Wonderland" "Lewis Carroll" 12 (1495 # 100) ].

(** INSERT OR IGNORE: a row whose id is taken is left out. *)
Definition insert_or_ignore (now : Timestamp) (t : gmap Z Row)
    (b : BookData) : gmap Z Row :=
  match t !! d_id b with
  | Some _ => t
  | None =>
      <[d_id b := mkRow (d_title b) (d_author b) (d_quantity b) (d_price b)
                        now now]> t
  end.

(** [_setup]: the table exists from here on, the sample rows are inserted
    where their ids are free, and the whole is committed. *)
Definition _setup (now : Timestamp) (c : Conn) : Conn :=
  let c1 := implicit_begin c in
  commit (write (foldl (insert_or_ignore now) (view c1) books) c1).

(** INSERT INTO books VALUES (...); commit.  A clash on the primary key or a
    fault raises [sqlite3.Error], which is caught: the result is [False] and
    the transaction the statement opened stays open. *)
Definition add_book (data : BookData) (now : Timestamp) (fault : bool)
    (c : Conn) : bool * Conn :=
  let c1 := implicit_begin c in
  if fault then (false, c1)
  else
    match view c1 !! d_id data with
    | Some _ => (false, c1)
    | None =>
        let r := mkRow (d_title data) (d_author data) (d_quantity data)
                       (d_price data) now now in
        (true, commit (write (<[d_id data := r]> (view c1)) c1))
    end.

(** The SET clause applied to a row, then [last_updated = now]. *)
Definition set_fields (u : Updates) (now : Timestamp) (r : Row) : Row :=
  mkRow (default (title r) (u_title u))
        (default (author r) (u_author u))
        (default (quantity r) (u_quantity u))
        (default (price r) (u_price u))
        (date_added r)
        now.

(** UPDATE books SET k = ?, ..., last_updated = ? WHERE id = ?; commit;
    rowcount > 0.  With no key the statement is "SET , last_updated = ?",
    which does not parse: [sqlite3.Error] is caught before anything runs.
    A key [id] moves the row, and clashes if the target id is taken. *)
Definition update_book (book_id : Z) (updates : Updates) (now : Timestamp)
    (fault : bool) (c : Conn) : bool * Conn :=
  if is_empty updates then (false, c)
  else
    let c1 := implicit_begin c in
    if fault then (false, c1)
    else
      match view c1 !! book_id with
      | None => (false, commit c1)
      | Some r =>
          let new_id := default book_id (u_id updates) in
          if bool_decide (new_id ≠ book_id ∧ is_Some (view c1 !! new_id))
          then (false, c1)
          else
            (true,
             commit (write (<[new_id := set_fields updates now r]>
                              (delete book_id (view c1))) c1))
      end.

(** DELETE FROM books WHERE id = ?; commit; rowcount > 0.  Nothing is
    caught here: a fault escapes to the caller. *)
Definition delete_book (book_id : Z) (fault : bool) (c : Conn)
    : Exc bool * Conn :=
  let c1 := implicit_begin c in
  if fault then (Raise EngineFault, c1)
  else
    (Ok (bool_decide (is_Some (view c1 !! book_id))),
     commit (write (delete book_id (view c1)) c1)).

Definition get_book (book_id : Z) (c : Conn) : option Book :=
  _row_to_dict book_id <$> view c !! book_id.

(** The rows SELECT * FROM books yields, as dictionaries.  SQL fixes no
    order without ORDER BY; the model takes the order of [map_to_list]. *)
Definition get_all_books (c : Conn) : list Book :=
  uncurry _row_to_dict <$> map_to_list (view c).

(** One condition of the WHERE clause per filter that is present. *)
Definition matches (f : Filters) (b : Book) : bool :=
  from_option (λ v, Text.like ("%" ++ v ++ "%") (bk_title b)) true (f_title f)
  && from_option (λ v, Text.like ("%" ++ v ++ "%") (bk_author b)) true
       (f_author f)
  && from_option (λ v, bool_decide (bk_id b = v)) true (f_id f)
  && from_option (λ v, Qle_bool (bk_price b) v) true (f_max_price f)
  && from_option (λ v, Qle_bool v (bk_price b)) true (f_min_price f)
  && from_option (λ v, bool_decide (bk_quantity b < v)) true (f_min_stock f).

Definition search_books (filters : Filters) (c : Conn) : list Book :=
  filter (λ b, matches filters b = true) (get_all_books c).

(** [if exclude_id:] is Python truthiness: [None] and [0] exclude nothing. *)
Definition excludes (exclude_id : option Z) (i : Z) : bool :=
  match exclude_id with
  | Some e => if bool_decide (e = 0) then false else bool_decide (i = e)
  | None => false
  end.

(** The WHERE clause [lower(title)=? AND lower(author)=?] with the
    parameters [(title.lower(), author.lower())]: the column is lower-cased
    by SQLite, the parameter by Python. *)
Definition same_key (t a : string) (r : Row) : bool :=
  bool_decide (Text.lower (title r) = Text.py_lower t)
  && bool_decide (Text.lower (author r) = Text.py_lower a).

(** SELECT id FROM books WHERE lower(title)=? AND lower(author)=?
    [AND id != ?]; fetchone() is not None. *)
Definition is_duplicate_title_author (t a : string) (exclude_id : option Z)
    (c : Conn) : bool :=
  existsb (λ kr, same_key t a kr.2 && negb (excludes exclude_id kr.1))
          (map_to_list (view c)).

End BookDatabase.

(** ** The console and the operator *)

Inductive Field := FId | FTitle | FAuthor | FQuantity | FPrice.

(** The messages of the validators ([MESSAGES] and the literal texts). *)
Inductive VError :=
  | NotPositive         (* "ID must be positive" *)
  | IdExists            (* MESSAGES["id_exists"] *)
  | Empty               (* "Field cannot be empty" *)
  | NegativeQuantity    (* "Quantity must be 0 or more" *)
  | NegativePrice       (* "Price must be 0 or more" *)
  | Duplicate.          (* MESSAGES["duplicate"] *)

(** What [console.print] shows; panels and menus of choices are left out. *)
Inductive Msg :=
  | Cancelled                       (* MESSAGES["cancel"] *)
  | NotFound                        (* MESSAGES["not_found"] *)
  | Added                           (* MESSAGES["added"] *)
  | AddFailed                       (* MESSAGES["add_failed"] *)
  | Deleted                         (* MESSAGES["deleted"] *)
  | DeleteFailed                    (* "Failed to delete book." *)
  | Updated                         (* MESSAGES["updated"] *)
  | UpdateFailed                    (* MESSAGES["update_failed"] *)
  | NoChanges                       (* MESSAGES["no_changes"] *)
  | Unchanged (f : Field)           (* "... unchanged" *)
  | NotANumber (f : Field)          (* "... must be a number." *)
  | Invalid (e : VError)            (* the message of a validator *)
  | FailedToUpdateId (e : SqlError) (* "Failed to update ID: ..." *)
  | ErrorDuringUpdate (e : SqlError) (* "Error during update: ..." *)
  | Details (b : Book).             (* the current book, or a table row *)

(** What the operator typed at a numeric prompt.  Pressing Enter gives the
    default of the prompt, which is the current value.  The three cases
    leave out the texts that pass [isdigit] and that [int] refuses (a
    superscript two), and the answers "nan" and "inf" at the price
    prompt. *)
Inductive Answer (A : Type) :=
  | TypedX                  (* "x" or "X" *)
  | NotNumeric              (* text that is not a number *)
  | Typed (a : A).          (* a number, with its value *)
Arguments TypedX {A}.
Arguments NotNumeric {A}.
Arguments Typed {A} a.

(** [val.isdigit()]: a number written with digits only, so not negative. *)
Definition isdigit (a : Answer Z) : bool :=
  match a with
  | Typed z => bool_decide (0 ≤ z)
  | _ => false
  end.

(** The answers the operator gives to the prompts of one form. *)
Record Inputs := mkInputs {
  in_id : Answer Z;
  in_title : string;
  in_author : string;
  in_quantity : Answer Z;
  in_price : Answer Q
}.

(** The choices "1" to "6" of [_get_update_choice]; "x" ends the session. *)
Inductive Choice :=
  | ChId | ChTitle | ChAuthor | ChQuantity | ChPrice | ChAll.

(** Which statements the engine refuses during one operation. *)
Record Faults := mkFaults {
  insert_fails : bool;
  update_fails : bool;
  delete_fails : bool
}.

Definition no_faults : Faults := mkFaults false false false.

(** One turn of the loop of [BookManager.update_book]. *)
Record Step := mkStep {
  choice : Choice;
  inputs : Inputs;
  step_time : Timestamp;
  step_faults : Faults
}.

Inductive PyError :=
  | TypeError                   (* subscripting [None] *)
  | Sqlite3Error (e : SqlError).

(** How a method of the manager ends. *)
Inductive Status :=
  | Returned
  | Uncaught (e : PyError).

Record World := mkWorld {
  db : Conn;
  console : list Msg
}.

(** ** A state monad over the world *)

Definition M (A : Type) : Type := World → A * World.

Definition ret {A} (a : A) : M A := λ w, (a, w).

Definition bind {A B} (m : M A) (k : A → M B) : M B :=
  λ w, k (m w).1 (m w).2.

Definition print (m : Msg) : M unit :=
  λ w, (tt, mkWorld (db w) (console w ++ [m])).

(** A call that reads the database. *)
Definition query {A} (f : Conn → A) : M A := λ w, (f (db w), w).

(** A call that may change the database. *)
Definition exec {A} (f : Conn → A * Conn) : M A :=
  λ w, ((f (db w)).1, mkWorld (f (db w)).2 (console w)).

Definition exec_ (f : Conn → Conn) : M unit :=
  λ w, (tt, mkWorld (f (db w)) (console w)).

Declare Scope world_scope.
Delimit Scope world_scope with world.
Notation "x ⇐ m ;; k" := (bind m (λ x, k))
  (at level 100, m at next level, right associativity) : world_scope.
Notation "m ;;; k" := (bind m (λ _, k))
  (at level 100, right associativity) : world_scope.
Local Open Scope world_scope.

(** ** class BookManager *)

Module BookManager.

(** The validators return [(is_valid, message)]: [None] is [True] with the
    empty message and [Some e] is [False] with the message [e]. *)
Definition _validate_id (book_id : Z) (exclude_id : option Z) (c : Conn)
    : option VError :=
  if bool_decide (book_id ≤ 0) then Some NotPositive
  else
    match BookDatabase.get_book book_id c with
    | Some existing_book =>
        if match exclude_id with
           | None => true
           | Some e => bool_decide (bk_id existing_book ≠ e)
           end
        then Some IdExists
        else None
    | None => None
    end.

Definition _validate_text (text : string) : option VError :=
  if bool_decide (Text.strip text = EmptyString) then Some Empty else None.

Definition _validate_quantity (qty : Z) : option VError :=
  if bool_decide (qty < 0) then Some NegativeQuantity else None.

Definition _validate_price (p : Q) : option VError :=
  if negb (Qle_bool 0 p) then Some NegativePrice else None.

Definition _validate_duplicate (t a : string) (exclude_id : option Z)
    (c : Conn) : option VError :=
  if BookDatabase.is_duplicate_title_author t a exclude_id c
  then Some Duplicate
  else None.

(** One pass of the loop of [add_book]: [Again] is [continue]. *)
Inductive Flow := Again | Finished.

Definition add_book_pass (now : Timestamp) (fault : bool) (inp : Inputs)
    : M Flow :=
  match in_id inp with
  | TypedX => print Cancelled ;;; ret Finished
  | NotNumeric => print (NotANumber FId) ;;; ret Again
  | Typed id_val =>
    if negb (isdigit (in_id inp)) then print (NotANumber FId) ;;; ret Again
    else
    v ⇐ query (_validate_id id_val None) ;;
    match v with
    | Some msg => print (Invalid msg) ;;; ret Again
    | None =>
    if Text.is_x (in_title inp) then print Cancelled ;;; ret Finished
    else
    match _validate_text (in_title inp) with
    | Some msg => print (Invalid msg) ;;; ret Again
    | None =>
    if Text.is_x (in_author inp) then print Cancelled ;;; ret Finished
    else
    match _validate_text (in_author inp) with
    | Some msg => print (Invalid msg) ;;; ret Again
    | None =>
    v ⇐ query (_validate_duplicate (Text.strip (in_title inp))
                 (Text.strip (in_author inp)) None) ;;
    match v with
    | Some msg => print (Invalid msg) ;;; ret Again
    | None =>
    match in_quantity inp with
    | TypedX => print Cancelled ;;; ret Finished
    | NotNumeric => print (NotANumber FQuantity) ;;; ret Again
    | Typed qty =>
    if negb (isdigit (in_quantity inp))
    then print (NotANumber FQuantity) ;;; ret Again
    else
    match _validate_quantity qty with
    | Some msg => print (Invalid msg) ;;; ret Again
    | None =>
    match in_price inp with
    | TypedX => print Cancelled ;;; ret Finished
    | NotNumeric => print (NotANumber FPrice) ;;; ret Again
    | Typed p =>
    match _validate_price p with
    | Some msg => print (Invalid msg) ;;; ret Again
    | None =>
      ok ⇐ exec (BookDatabase.add_book
                   (mkData id_val (Text.strip (in_title inp))
                      (Text.strip (in_author inp)) qty p) now fault) ;;
      (if ok then print Added else print AddFailed) ;;;
      ret Finished
    end end end end end end end end
  end.

(** [add_book]: the form is asked again until a pass finishes; when the
    script of the operator is over, the next answer is "x". *)
Fixpoint add_book (now : Timestamp) (fault : bool) (forms : list Inputs)
    : M unit :=
  match forms with
  | [] => print Cancelled
  | inp :: rest =>
      r ⇐ add_book_pass now fault inp ;;
      match r with
      | Again => add_book now fault rest
      | Finished => ret tt
      end
  end.

(** Each handler returns whether a change was staged, and the dictionary
    [updates] it was given, with the change when there is one. *)
Definition _handle_id_update (book : Book) (updates : Updates)
    (new_id : Answer Z) : M (bool * Updates) :=
  match new_id with
  | TypedX => ret (false, updates)
  | NotNumeric => print (NotANumber FId) ;;; ret (false, updates)
  | Typed new_id_val =>
      if bool_decide (new_id_val = bk_id book)
      then print (Unchanged FId) ;;; ret (false, updates)
      else
        v ⇐ query (_validate_id new_id_val (Some (bk_id book))) ;;
        match v with
        | Some msg => print (Invalid msg) ;;; ret (false, updates)
        | None => ret (true, set_id new_id_val updates)
        end
  end.

Definition _handle_title_update (book : Book) (updates : Updates)
    (t : string) : M (bool * Updates) :=
  if Text.is_x t then ret (false, updates)
  else if bool_decide (Text.strip t = bk_title book)
  then print (Unchanged FTitle) ;;; ret (false, updates)
  else
    match _validate_text t with
    | Some msg => print (Invalid msg) ;;; ret (false, updates)
    | None =>
        let author_to_check := default (bk_author book) (u_author updates) in
        v ⇐ query (_validate_duplicate (Text.strip t) author_to_check
                     (Some (bk_id book))) ;;
        match v with
        | Some msg_dup => print (Invalid msg_dup) ;;; ret (false, updates)
        | None => ret (true, set_title (Text.strip t) updates)
        end
    end.

Definition _handle_author_update (book : Book) (updates : Updates)
    (a : string) : M (bool * Updates) :=
  if Text.is_x a then ret (false, updates)
  else if bool_decide (Text.strip a = bk_author book)
  then print (Unchanged FAuthor) ;;; ret (false, updates)
  else
    match _validate_text a with
    | Some msg => print (Invalid msg) ;;; ret (false, updates)
    | None =>
        let title_to_check := default (bk_title book) (u_title updates) in
        v ⇐ query (_validate_duplicate title_to_check (Text.strip a)
                     (Some (bk_id book))) ;;
        match v with
        | Some msg_dup => print (Invalid msg_dup) ;;; ret (false, updates)
        | None => ret (true, set_author (Text.strip a) updates)
        end
    end.

Definition _handle_quantity_update (book : Book) (updates : Updates)
    (qty : Answer Z) : M (bool * Updates) :=
  match qty with
  | TypedX => ret (false, updates)
  | NotNumeric => print (NotANumber FQuantity) ;;; ret (false, updates)
  | Typed qty_val =>
      if negb (isdigit qty)
      then print (NotANumber FQuantity) ;;; ret (false, updates)
      else if bool_decide (qty_val = bk_quantity book)
      then print (Unchanged FQuantity) ;;; ret (false, updates)
      else
        match _validate_quantity qty_val with
        | Some msg => print (Invalid msg) ;;; ret (false, updates)
        | None => ret (true, set_quantity qty_val updates)
        end
  end.

Definition _handle_price_update (book : Book) (updates : Updates)
    (p : Answer Q) : M (bool * Updates) :=
  match p with
  | TypedX => ret (false, updates)
  | NotNumeric => print (NotANumber FPrice) ;;; ret (false, updates)
  | Typed price_val =>
      if Qeq_bool price_val (bk_price book)
      then print (Unchanged FPrice) ;;; ret (false, updates)
      else
        match _validate_price price_val with
        | Some msg => print (Invalid msg) ;;; ret (false, updates)
        | None => ret (true, set_price price_val updates)
        end
  end.

(** Called only when both keys are in [updates]; a missing key would be a
    KeyError, which the guard of the caller rules out. *)
Definition _validate_combined_update (updates : Updates) (book_id : Z)
    : M bool :=
  match u_title updates, u_author updates with
  | Some t, Some a =>
      v ⇐ query (_validate_duplicate t a (Some book_id)) ;;
      match v with
      | Some msg => print (Invalid msg) ;;; ret false
      | None => ret true
      end
  | _, _ => ret true
  end.

Definition asks (field_choice choice : Choice) : bool :=
  match choice with
  | ChAll => true
  | ChId => match field_choice with ChId => true | _ => false end
  | ChTitle => match field_choice with ChTitle => true | _ => false end
  | ChAuthor => match field_choice with ChAuthor => true | _ => false end
  | ChQuantity => match field_choice with ChQuantity => true | _ => false end
  | ChPrice => match field_choice with ChPrice => true | _ => false end
  end.

(** One [if choice in (k, "6"): if handler(book, updates): changes_made =
    True] of [_process_update_choice]. *)
Definition stage (asked : bool) (handler : Updates → M (bool * Updates))
    (st : bool * Updates) : M (bool * Updates) :=
  if asked then
    r ⇐ handler st.2 ;;
    ret (if r.1 then true else st.1, r.2)
  else ret st.

(** [None] when the combined check fails, the empty dictionary when no
    change was staged, else the staged changes. *)
Definition _process_update_choice (choice : Choice) (book : Book)
    (inp : Inputs) : M (option Updates) :=
  st ⇐ stage (asks ChId choice)
         (λ u, _handle_id_update book u (in_id inp)) (false, no_updates) ;;
  st ⇐ stage (asks ChTitle choice)
         (λ u, _handle_title_update book u (in_title inp)) st ;;
  st ⇐ stage (asks ChAuthor choice)
         (λ u, _handle_author_update book u (in_author inp)) st ;;
  st ⇐ stage (asks ChQuantity choice)
         (λ u, _handle_quantity_update book u (in_quantity inp)) st ;;
  st ⇐ stage (asks ChPrice choice)
         (λ u, _handle_price_update book u (in_price inp)) st ;;
  ok ⇐ (if bool_decide (is_Some (u_title st.2) ∧ is_Some (u_author st.2))
        then _validate_combined_update st.2 (bk_id book)
        else ret true) ;;
  if ok then ret (Some (if st.1 then st.2 else no_updates))
  else ret None.

(** [_apply_updates]: with a key [id] the record is inserted again under the
    new id and the old one deleted, between BEGIN TRANSACTION and commit;
    without it the fields are updated in place. *)
Definition _apply_updates (fl : Faults) (now : Timestamp) (book_id : Z)
    (updates : Updates) : M unit :=
  if is_empty updates then print NoChanges
  else
    match u_id updates with
    | Some new_id =>
        book ⇐ query (BookDatabase.get_book book_id) ;;
        match book with
        | None => print NotFound
        | Some book =>
            let new_book :=
              mkData new_id
                (default (bk_title book) (u_title updates))
                (default (bk_author book) (u_author updates))
                (default (bk_quantity book) (u_quantity updates))
                (default (bk_price book) (u_price updates)) in
            began ⇐ exec begin_transaction ;;
            match began with
            | Raise e => print (ErrorDuringUpdate e)
            | Ok _ =>
                added ⇐ exec (BookDatabase.add_book new_book now
                                (insert_fails fl)) ;;
                if added then
                  deleted ⇐ exec (BookDatabase.delete_book book_id
                                    (delete_fails fl)) ;;
                  match deleted with
                  | Ok _ => exec_ commit ;;; print Updated
                  | Raise e => exec_ rollback ;;; print (FailedToUpdateId e)
                  end
                else exec_ rollback ;;; print UpdateFailed
            end
        end
    | None =>
        ok ⇐ exec (BookDatabase.update_book book_id updates now
                     (update_fails fl)) ;;
        if ok then print Updated else print UpdateFailed
    end.

(** [_get_book_to_update]: asks until an existing id or "x" is typed. *)
Fixpoint _get_book_to_update (targets : list (Answer Z)) : M (option Book) :=
  match targets with
  | [] => ret None
  | val :: rest =>
      match val with
      | TypedX => ret None
      | NotNumeric => print (NotANumber FId) ;;; _get_book_to_update rest
      | Typed z =>
          if negb (isdigit val)
          then print (NotANumber FId) ;;; _get_book_to_update rest
          else
            book ⇐ query (BookDatabase.get_book z) ;;
            match book with
            | None => print NotFound ;;; _get_book_to_update rest
            | Some b => ret (Some b)
            end
      end
  end.

(** The loop of [update_book] once the book is chosen.  The end of the
    script is the choice "x".  After an update the book is read again; when
    it is gone, showing it subscripts [None], which nothing catches. *)
Fixpoint update_loop (steps : list Step) (book : Book) : M Status :=
  match steps with
  | [] => print (Details book) ;;; print Cancelled ;;; ret Returned
  | st :: rest =>
      print (Details book) ;;;
      updates ⇐ _process_update_choice (choice st) book (inputs st) ;;
      match updates with
      | None => update_loop rest book
      | Some u =>
          if is_empty u then print NoChanges ;;; update_loop rest book
          else
            _apply_updates (step_faults st) (step_time st) (bk_id book) u ;;;
            book' ⇐ query (BookDatabase.get_book
                             (default (bk_id book) (u_id u))) ;;
            match book' with
            | Some b => update_loop rest b
            | None => ret (Uncaught TypeError)
            end
      end
  end.

Definition update_book (targets : list (Answer Z)) (steps : list Step)
    : M Status :=
  book ⇐ _get_book_to_update targets ;;
  match book with
  | None => ret Returned
  | Some b => update_loop steps b
  end.

(** [delete_book]: asks for an id until one exists, shows the book and
    deletes it when the operator confirms. *)
Fixpoint delete_book (fault : bool) (script : list (Answer Z * bool))
    : M Status :=
  match script with
  | [] => print Cancelled ;;; ret Returned
  | (val, confirm) :: rest =>
      match val with
      | TypedX => print Cancelled ;;; ret Returned
      | NotNumeric => print (NotANumber FId) ;;; delete_book fault rest
      | Typed book_id =>
          if negb (isdigit val)
          then print (NotANumber FId) ;;; delete_book fault rest
          else
            book ⇐ query (BookDatabase.get_book book_id) ;;
            match book with
            | None => print NotFound ;;; delete_book fault rest
            | Some b =>
                print (Details b) ;;;
                if confirm then
                  r ⇐ exec (BookDatabase.delete_book book_id fault) ;;
                  match r with
                  | Ok true => print Deleted ;;; ret Returned
                  | Ok false => print DeleteFailed ;;; ret Returned
                  | Raise e => ret (Uncaught (Sqlite3Error e))
                  end
                else ret Returned
            end
      end
  end.

(** The operations of the menu of [run] that change the store. *)
Inductive Command :=
  | CmdAdd (now : Timestamp) (forms : list Inputs)
  | CmdUpdate (targets : list (Answer Z)) (steps : list Step)
  | CmdDelete (script : list (Answer Z * bool)).

Definition run_command (fl : Faults) (cmd : Command) : M Status :=
  match cmd with
  | CmdAdd now forms => add_book now (insert_fails fl) forms ;;; ret Returned
  | CmdUpdate targets steps => update_book targets steps
  | CmdDelete script => delete_book (delete_fails fl) script
  end.

(** [run]: the menu loop; an exception nothing catches ends the program. *)
Fixpoint run (fl : Faults) (cmds : list Command) : M Status :=
  match cmds with
  | [] => ret Returned
  | cmd :: rest =>
      s ⇐ run_command fl cmd ;;
      match s with
      | Returned => run fl rest
      | Uncaught e => ret (Uncaught e)
      end
  end.

(** [_display_books]: one row of the table per book. *)
Fixpoint _display_books (books : list Book) : M unit :=
  match books with
  | [] => ret tt
  | b :: rest => print (Details b) ;;; _display_books rest
  end.

(** One turn of the menu of [search_books]: the kind of search chosen and
    the answer to its prompt. *)
Inductive Query :=
  | ById (val : Answer Z)
  | ByTitle (t : string)
  | ByAuthor (a : string)
  | ByMaxPrice (val : Answer Q)
  | ByMinPrice (val : Answer Q)
  | ByLowStock (val : Answer Z).

(** The end of a turn of [search_books]: the store is searched and the
    results are shown, or "not found" when there is none. *)
Definition show_results (filters : Filters) : M unit :=
  results ⇐ query (BookDatabase.search_books filters) ;;
  match results with
  | [] => print NotFound
  | _ => _display_books results
  end.

(** The dictionary [filters] of a turn, or the reason to ask again: [None]
    is the answer "x", [Some f] the message that the text is no number. *)
Definition read_query (q : Query) : Filters + option Field :=
  match q with
  | ById val =>
      match val with
      | TypedX => inr None
      | NotNumeric => inr (Some FId)
      | Typed z =>
          if isdigit val
          then inl (mkFilters None None (Some z) None None None)
          else inr (Some FId)
      end
  | ByTitle t =>
      if Text.is_x t then inr None
      else inl (mkFilters (Some t) None None None None None)
  | ByAuthor a =>
      if Text.is_x a then inr None
      else inl (mkFilters None (Some a) None None None None)
  | ByMaxPrice val =>
      match val with
      | TypedX => inr None
      | NotNumeric => inr (Some FPrice)
      | Typed p => inl (mkFilters None None None (Some p) None None)
      end
  | ByMinPrice val =>
      match val with
      | TypedX => inr None
      | NotNumeric => inr (Some FPrice)
      | Typed p => inl (mkFilters None None None None (Some p) None)
      end
  | ByLowStock val =>
      match val with
      | TypedX => inr None
      | NotNumeric => inr (Some FQuantity)
      | Typed z =>
          if isdigit val
          then inl (mkFilters None None None None None (Some z))
          else inr (Some FQuantity)
      end
  end.

(** [search_books]: the menu is shown again after every turn; the end of
    the script is the choice "x". *)
Fixpoint search_books (script : list Query) : M unit :=
  match script with
  | [] => ret tt
  | q :: rest =>
      match read_query q with
      | inl filters => show_results filters ;;; search_books rest
      | inr None => search_books rest
      | inr (Some f) => print (NotANumber f) ;;; search_books rest
      end
  end.

Definition view_inventory : M unit :=
  books ⇐ query BookDatabase.get_all_books ;;
  match books with
  | [] => print NotFound
  | _ => _display_books books
  end.

End BookManager.


(** * Vocabulary of the properties *)

(** The natural key: no two rows of a table agree on the lower-cased title
    and the lower-cased author. *)
Definition natural_key_unique (t : gmap Z Row) : Prop :=
  ∀ i j r1 r2,
    t !! i = Some r1 → t !! j = Some r2 →
    Text.lower (title r1) = Text.lower (title r2) →
    Text.lower (author r1) = Text.lower (author r2) →
    i = j.

(** The world of a manager that has printed nothing yet. *)
Definition start (c : Conn) : World := mkWorld c [].

(** The snapshot [book] is what the store holds under its id. *)
Definition in_sync (book : Book) (c : Conn) : Prop :=
  BookDatabase.get_book (bk_id book) c = Some book.

(** What the handlers guarantee about a dictionary [updates] staged for
    [book]: a staged id is another, free id; and when a title or an author
    is staged, the resulting pair belongs to no other record. *)
Definition staged_ok (book : Book) (c : Conn) (u : Updates) : Prop :=
  (∀ n, u_id u = Some n → n ≠ bk_id book ∧ view c !! n = None)
  ∧ ((u_title u = None ∧ u_author u = None)
     ∨ BookDatabase.is_duplicate_title_author
         (default (bk_title book) (u_title u))
         (default (bk_author book) (u_author u))
         (Some (bk_id book)) c = false).

(** The handler [h] only reads the store [c], and keeps the property [P] of
    the dictionary it is given. *)
Definition keeps (c : Conn) (P : Updates → Prop)
    (h : Updates → M (bool * Updates)) : Prop :=
  ∀ u w, db w = c → P u → db (h u w).2 = c ∧ P (h u w).1.2.

(** The row inserted by an identifier change: the fields of [updates] where
    present, else those of the current row, and both dates set to [now]. *)
Definition replacement (u : Updates) (now : Timestamp) (r : Row) : Row :=
  mkRow (default (title r) (u_title u))
        (default (author r) (u_author u))
        (default (quantity r) (u_quantity u))
        (default (price r) (u_price u))
        now now.

(** [_apply_updates] seen from the table: the message it prints and the
    table it leaves, by cases on the dictionary, the table, the state of
    the connection and the statements that are refused. *)
Definition apply_updates_outcome (fl : Faults) (now : Timestamp)
    (book_id : Z) (u : Updates) (c : Conn) : Msg * gmap Z Row :=
  let t := view c in
  if is_empty u then (NoChanges, t)
  else
    match u_id u with
    | Some n =>
        match t !! book_id with
        | None => (NotFound, t)
        | Some r =>
            match pending c with
            | Some _ => (ErrorDuringUpdate OperationalError, t)
            | None =>
                if insert_fails fl then (UpdateFailed, t)
                else
                  match t !! n with
                  | Some _ => (UpdateFailed, t)
                  | None =>
                      let t1 := <[n := replacement u now r]> t in
                      if delete_fails fl
                      then (FailedToUpdateId EngineFault, t1)
                      else (Updated, delete book_id t1)
                  end
            end
        end
    | None =>
        if update_fails fl then (UpdateFailed, t)
        else
          match t !! book_id with
          | None => (UpdateFailed, t)
          | Some r =>
              (Updated, <[book_id := BookDatabase.set_fields u now r]> t)
          end
    end.

(** No DELETE of an identifier change is refused during the command. *)
Definition deletes_go_through (cmd : BookManager.Command) : Prop :=
  match cmd with
  | BookManager.CmdUpdate _ steps =>
      Forall (λ st, delete_fails (step_faults st) = false) steps
  | _ => True
  end.

(** An executable check of the natural key, for concrete tables. *)
Definition natural_key_uniqueb (t : gmap Z Row) : bool :=
  forallb (λ kr1 : Z * Row,
    forallb (λ kr2 : Z * Row,
      implb (bool_decide (Text.lower (title kr2.2) = Text.lower (title kr1.2))
             && bool_decide
                  (Text.lower (author kr2.2) = Text.lower (author kr1.2)))
            (bool_decide (kr2.1 = kr1.1)))
      (map_to_list t))
    (map_to_list t).

(** A text written in ASCII: every code point is below 128.  On such a
    text Python and SQLite lower-case alike. *)
Fixpoint ascii_text (s : string) : bool :=
  match s with
  | EmptyString => true
  | String a s' => (N_of_ascii a <? 128)%N && ascii_text s'
  end.

(** Every title and author of the table is written in ASCII. *)
Definition ascii_table (t : gmap Z Row) : Prop :=
  ∀ i r, t !! i = Some r →
         ascii_text (title r) = true ∧ ascii_text (author r) = true.

(** What the operator types for the title and the author is ASCII. *)
Definition ascii_inputs (inp : Inputs) : Prop :=
  ascii_text (in_title inp) = true ∧ ascii_text (in_author inp) = true.

Definition ascii_command (cmd : BookManager.Command) : Prop :=
  match cmd with
  | BookManager.CmdAdd _ forms => Forall ascii_inputs forms
  | BookManager.CmdUpdate _ steps =>
      Forall (λ st, ascii_inputs (inputs st)) steps
  | BookManager.CmdDelete _ => True
  end.

(** The title and the author staged in [updates] are ASCII. *)
Definition staged_ascii (u : Updates) : Prop :=
  (∀ v, u_title u = Some v → ascii_text v = true)
  ∧ (∀ v, u_author u = Some v → ascii_text v = true).

(** An integer that the [sqlite3] module binds to a statement: it fits the
    64-bit INTEGER of SQLite. *)
Definition int64 (z : Z) : Prop := - 2 ^ 63 ≤ z < 2 ^ 63.





(** ** Stores and times used in the examples *)

Definition t0 : Timestamp := "2024-01-01T09:00:00".
Definition t1 : Timestamp := "2024-06-01T12:00:00".

(** One book, as in the scenario of the identifier change. *)
Definition store_3001 : Conn :=
  open_conn {[ 3001 := mkRow "A" "B" 5 (10 # 1) t0 t0 ]}.

(** Two books, named as in the scenario of the combined edit. *)
Definition store_xy : Conn :=
  open_conn (<[1 := mkRow "X" "Y" 4 (12 # 1) t0 t0]>
             {[ 2 := mkRow "Z" "W" 7 (8 # 1) t0 t0 ]}).

(** The same scenario with titles that are not the answer "x". *)
Definition store_novels : Conn :=
  open_conn (<[1 := mkRow "Emma" "Jane Austen" 4 (12 # 1) t0 t0]>
             {[ 2 := mkRow "Dune" "Frank Herbert" 7 (8 # 1) t0 t0 ]}).



(** The dictionaries [filters] with one key. *)
Definition by_id (i : Z) : Filters :=
  mkFilters None None (Some i) None None None.
Definition by_title (v : string) : Filters :=
  mkFilters (Some v) None None None None None.
Definition by_author (v : string) : Filters :=
  mkFilters None (Some v) None None None None.
Definition by_low_stock (n : Z) : Filters :=
  mkFilters None None None None None (Some n).

(** Every character of [s] is white space. *)
Fixpoint blank (s : string) : bool :=
  match s with
  | EmptyString => true
  | String a s' => Text.is_space a && blank s'
  end.

(** A text as the forms store it: stripped, and not empty. *)
Definition clean (s : string) : Prop :=
  Text.strip s = s ∧ s ≠ EmptyString.

(** A row as the forms make them: a positive id, a clean title and author
    and a quantity that is not negative.  (The price is left out: [float]
    reads "nan", which is not below zero.) *)
Definition valid_row (i : Z) (r : Row) : Prop :=
  0 < i ∧ clean (title r) ∧ clean (author r) ∧ 0 ≤ quantity r.

Definition valid_table (t : gmap Z Row) : Prop :=
  ∀ i r, t !! i = Some r → valid_row i r.

(** The values staged in [updates] have passed their validators. *)
Definition staged_valid (u : Updates) : Prop :=
  (∀ n, u_id u = Some n → 0 < n)
  ∧ (∀ v, u_title u = Some v → clean v)
  ∧ (∀ v, u_author u = Some v → clean v)
  ∧ (∀ v, u_quantity u = Some v → 0 ≤ v).
(** * Properties *)

Local Open Scope list_scope.

(** Unfolds the monad down to pairs. *)
Ltac run_m := unfold bind, ret, print, query, exec, exec_; simpl.

(** ** Text *)

Example lower_mixed : Text.lower "Harry Potter 7" = "harry potter 7".
Proof. reflexivity. Qed.

Example strip_both_ends : Text.strip "  J.K. Rowling  " = "J.K. Rowling".
Proof. reflexivity. Qed.

Example strip_blank : Text.strip "   " = EmptyString.
Proof. reflexivity. Qed.

Example x_is_skip : Text.is_x "X" = true ∧ Text.is_x " x" = false.
Proof. split; reflexivity. Qed.

Example like_substring :
  Text.like "%lord%" "The Lord of the Rings" = true
  ∧ Text.like "%h_rry%" "Harry Potter" = true
  ∧ Text.like "%ring%" "Harry Potter" = false.
Proof. repeat split; reflexivity. Qed.

Lemma lower_idempotent s : Text.lower (Text.lower s) = Text.lower s.
Proof.
  induction s as [|a s IH]; [done|]. simpl. rewrite IH. f_equal.
  unfold Text.lower_char.
  destruct a as [[] [] [] [] [] [] [] []]; reflexivity.
Qed.

(** On ASCII text the two lower-casings agree. *)
Lemma py_lower_ascii s :
  ascii_text s = true → Text.py_lower s = Text.lower s.
Proof.
  induction s as [|a s IH]; [done|]. simpl.
  intros [Ha Hs]%andb_true_iff. rewrite IH by done. f_equal.
  unfold Text.py_lower_char, Text.lower_char.
  apply N.ltb_lt in Ha.
  destruct ((65 <=? N_of_ascii a) && (N_of_ascii a <=? 90))%N; [done|].
  simpl. rewrite (proj2 (N.leb_gt 192 (N_of_ascii a))) by lia. done.
Qed.

Lemma ascii_text_lstrip s :
  ascii_text s = true → ascii_text (Text.lstrip s) = true.
Proof.
  induction s as [|a s IH]; [done|]. simpl.
  intros [Ha Hs]%andb_true_iff. destruct (Text.is_space a); [by apply IH|].
  simpl. by rewrite Ha, Hs.
Qed.

Lemma ascii_text_rstrip s :
  ascii_text s = true → ascii_text (Text.rstrip s) = true.
Proof.
  induction s as [|a s IH]; [done|]. simpl.
  intros [Ha Hs]%andb_true_iff. specialize (IH Hs).
  destruct (Text.rstrip s) as [|b r].
  - destruct (Text.is_space a); [done|]. simpl. by rewrite Ha.
  - simpl in *. by rewrite Ha, IH.
Qed.

Lemma ascii_text_strip s :
  ascii_text s = true → ascii_text (Text.strip s) = true.
Proof. intros H. by apply ascii_text_rstrip, ascii_text_lstrip. Qed.

(** An accented capital: Python lower-cases it, SQLite does not. *)
Example lower_accented :
  Text.py_lower (String "201" "mile") = String "233" "mile"
  ∧ Text.lower (String "201" "mile") = String "201" "mile".
Proof. split; reflexivity. Qed.

Example strip_no_break_space :
  Text.strip (String "160" (String "133" EmptyString)) = EmptyString.
Proof. reflexivity. Qed.

(** ** The connection *)

Section connection.
Implicit Types (c : Conn) (t : gmap Z Row).

Lemma view_implicit_begin c : view (implicit_begin c) = view c.
Proof. destruct c as [t [p|]]; reflexivity. Qed.

Lemma committed_implicit_begin c :
  committed (implicit_begin c) = committed c.
Proof. destruct c as [t [p|]]; reflexivity. Qed.

Lemma view_commit c : view (commit c) = view c.
Proof. reflexivity. Qed.

Lemma view_write t c : view (write t c) = t.
Proof. reflexivity. Qed.

Lemma view_open_conn t : view (open_conn t) = t.
Proof. reflexivity. Qed.

Lemma begin_transaction_idle c :
  idle c →
  begin_transaction c = (Ok tt, mkConn (view c) (Some (view c))).
Proof. destruct c as [t p]. unfold idle. simpl. by intros ->. Qed.

Lemma begin_transaction_busy c :
  ¬ idle c → begin_transaction c = (Raise OperationalError, c).
Proof. destruct c as [t [p|]]; unfold idle; simpl; [done|congruence]. Qed.

End connection.

(** ** The store *)

Section store.
Import BookDatabase.
Implicit Types (c : Conn) (r : Row) (u : Updates).

Lemma get_book_Some c i b :
  get_book i c = Some b ↔ ∃ r, view c !! i = Some r ∧ b = _row_to_dict i r.
Proof.
  unfold get_book. destruct (view c !! i) as [r|]; simpl; split.
  - intros [= <-]. eauto.
  - by intros (r' & [= <-] & ->).
  - done.
  - by intros (r' & ? & _).
Qed.

Lemma get_book_None c i : get_book i c = None ↔ view c !! i = None.
Proof. unfold get_book. by destruct (view c !! i). Qed.

Lemma get_book_id c i b : get_book i c = Some b → bk_id b = i.
Proof. intros (r & _ & ->)%get_book_Some. reflexivity. Qed.

Lemma row_to_dict_inj i j r r' :
  _row_to_dict i r = _row_to_dict j r' → i = j ∧ r = r'.
Proof.
  destruct r, r'. unfold _row_to_dict. simpl.
  by intros [= -> -> -> -> -> -> ->].
Qed.

(** What the natural-key query answers. *)
Lemma is_duplicate_spec t a ex c :
  is_duplicate_title_author t a ex c = true ↔
  ∃ i r, view c !! i = Some r ∧ same_key t a r = true
         ∧ excludes ex i = false.
Proof.
  unfold is_duplicate_title_author. rewrite existsb_exists. split.
  - intros [[i r] [Hin Hp]].
    apply list_elem_of_In, elem_of_map_to_list in Hin.
    apply andb_true_iff in Hp as [Hk He]. apply negb_true_iff in He. eauto.
  - intros (i & r & Hl & Hk & He). exists (i, r). split.
    + by apply list_elem_of_In, elem_of_map_to_list.
    + simpl. by rewrite Hk, He.
Qed.

Lemma same_key_spec t a r :
  same_key t a r = true ↔
  Text.lower (title r) = Text.py_lower t
  ∧ Text.lower (author r) = Text.py_lower a.
Proof.
  unfold same_key. rewrite andb_true_iff, !bool_decide_eq_true. done.
Qed.

Lemma excludes_other i j : i ≠ j → excludes (Some j) i = false.
Proof.
  intros Hne. unfold excludes. case_bool_decide; [done|].
  by rewrite bool_decide_eq_false_2.
Qed.

(** The view of the table after each statement of the store. *)
Lemma add_book_view data now fault c :
  view (add_book data now fault c).2 =
  if (add_book data now fault c).1
  then <[d_id data := mkRow (d_title data) (d_author data) (d_quantity data)
                            (d_price data) now now]> (view c)
  else view c.
Proof.
  unfold add_book. destruct fault; simpl.
  - apply view_implicit_begin.
  - rewrite view_implicit_begin.
    destruct (view c !! d_id data); simpl; [apply view_implicit_begin|done].
Qed.

Lemma add_book_result data now fault c :
  (add_book data now fault c).1 =
  negb fault && bool_decide (view c !! d_id data = None).
Proof.
  unfold add_book. destruct fault; simpl; [done|].
  rewrite view_implicit_begin. by destruct (view c !! d_id data).
Qed.

Lemma update_book_view book_id u now fault c :
  view (update_book book_id u now fault c).2 =
  if (update_book book_id u now fault c).1
  then match view c !! book_id with
       | Some r => <[default book_id (u_id u) := set_fields u now r]>
                     (delete book_id (view c))
       | None => view c
       end
  else view c.
Proof.
  unfold update_book. destruct (is_empty u); [done|].
  destruct fault; simpl; [apply view_implicit_begin|].
  rewrite view_implicit_begin.
  destruct (view c !! book_id) as [r|]; simpl; [|apply view_implicit_begin].
  case_bool_decide; simpl; [apply view_implicit_begin|done].
Qed.

Lemma delete_book_view book_id c :
  view (delete_book book_id false c).2 = delete book_id (view c).
Proof. unfold delete_book. simpl. by rewrite view_implicit_begin. Qed.

End store.

(** ** The manager: what the handlers stage *)

Section staging.
Import BookDatabase BookManager.
Implicit Types (c : Conn) (w : World) (u : Updates) (book : Book).

Lemma validate_id_free new_id book c :
  new_id ≠ bk_id book →
  _validate_id new_id (Some (bk_id book)) c = None →
  view c !! new_id = None.
Proof.
  intros Hne. unfold _validate_id. case_bool_decide; [done|].
  destruct (get_book new_id c) as [b|] eqn:E;
    [|by intros _; apply get_book_None].
  apply get_book_id in E. rewrite E. rewrite bool_decide_eq_true_2; done.
Qed.

Lemma validate_duplicate_None t a ex c :
  _validate_duplicate t a ex c = None ↔
  is_duplicate_title_author t a ex c = false.
Proof.
  unfold _validate_duplicate. by destruct (is_duplicate_title_author t a ex c).
Qed.

Lemma handle_id_keeps book c a :
  keeps c (staged_ok book c) (λ u, _handle_id_update book u a).
Proof.
  intros u w Hw Hu. unfold _handle_id_update.
  destruct a as [| |n]; run_m; [done..|].
  case_bool_decide as Hn; run_m; [done|]. rewrite Hw.
  destruct (_validate_id n (Some (bk_id book)) c) eqn:Hv; run_m; [done|].
  split; [done|]. destruct Hu as [_ Hk]. split; [|exact Hk].
  simpl. intros ? [= <-]. split; [done|]. by eapply validate_id_free.
Qed.

Lemma handle_title_keeps book c t :
  keeps c (staged_ok book c) (λ u, _handle_title_update book u t).
Proof.
  intros u w Hw Hu. unfold _handle_title_update.
  destruct (Text.is_x t); run_m; [done|].
  case_bool_decide; run_m; [done|].
  destruct (_validate_text t); run_m; [done|]. rewrite Hw.
  destruct (_validate_duplicate _ _ _ c) eqn:Hv; run_m; [done|].
  split; [done|]. destruct Hu as [Hi _]. split; [exact Hi|].
  right. simpl. by apply validate_duplicate_None.
Qed.

Lemma handle_author_keeps book c a :
  keeps c (staged_ok book c) (λ u, _handle_author_update book u a).
Proof.
  intros u w Hw Hu. unfold _handle_author_update.
  destruct (Text.is_x a); run_m; [done|].
  case_bool_decide; run_m; [done|].
  destruct (_validate_text a); run_m; [done|]. rewrite Hw.
  destruct (_validate_duplicate _ _ _ c) eqn:Hv; run_m; [done|].
  split; [done|]. destruct Hu as [Hi _]. split; [exact Hi|].
  right. simpl. by apply validate_duplicate_None.
Qed.

Lemma handle_quantity_keeps book c a :
  keeps c (staged_ok book c) (λ u, _handle_quantity_update book u a).
Proof.
  intros u w Hw Hu. unfold _handle_quantity_update.
  destruct a as [| |n]; run_m; [done..|].
  destruct (bool_decide (0 ≤ n)); run_m; [|done].
  case_bool_decide; run_m; [done|].
  destruct (_validate_quantity n); run_m; done.
Qed.

Lemma handle_price_keeps book c a :
  keeps c (staged_ok book c) (λ u, _handle_price_update book u a).
Proof.
  intros u w Hw Hu. unfold _handle_price_update.
  destruct a as [| |p]; run_m; [done..|].
  destruct (Qeq_bool p (bk_price book)); run_m; [done|].
  destruct (_validate_price p); run_m; done.
Qed.

Lemma stage_keeps c P h asked st w :
  keeps c P h → db w = c → P st.2 →
  db (stage asked h st w).2 = c ∧ P (stage asked h st w).1.2.
Proof.
  intros Hh Hw Hst. unfold stage. destruct asked; run_m; [|done].
  by apply Hh.
Qed.

Lemma staged_ok_no_updates book c : staged_ok book c no_updates.
Proof. split; [done|]. by left. Qed.

Lemma validate_combined_db u book_id w :
  db (_validate_combined_update u book_id w).2 = db w.
Proof.
  unfold _validate_combined_update.
  destruct (u_title u), (u_author u); run_m; try done.
  by destruct (_validate_duplicate _ _ _ _).
Qed.

(** When both a title and an author are staged, the author handler has
    already asked the store about this very pair: the combined check asks
    again and gets the same answer. *)
Lemma validate_combined_passes book c u w :
  db w = c → staged_ok book c u →
  is_Some (u_title u) → is_Some (u_author u) →
  (_validate_combined_update u (bk_id book) w).1 = true.
Proof.
  intros Hw [_ Hk] [t Ht] [a Ha]. unfold _validate_combined_update.
  rewrite Ht, Ha in *. simpl in *. run_m. rewrite Hw.
  destruct Hk as [[? _]|Hk]; [done|].
  apply validate_duplicate_None in Hk. by rewrite Hk.
Qed.

(** [_process_update_choice] leaves the store alone, what it returns has
    passed the checks of the handlers, and it never returns [None]. *)
Lemma process_update_choice_staged ch book inp w :
  db (_process_update_choice ch book inp w).2 = db w
  ∧ (∀ u, (_process_update_choice ch book inp w).1 = Some u →
          staged_ok book (db w) u)
  ∧ is_Some (_process_update_choice ch book inp w).1.
Proof.
  unfold _process_update_choice, bind.
  set (c := db w).
  pose proof (staged_ok_no_updates book c) as H0.
  set (r1 := stage (asks ChId ch) _ _ w).
  destruct (stage_keeps c _ _ (asks ChId ch) (false, no_updates) w
              (handle_id_keeps book c (in_id inp)) eq_refl H0) as [D1 H1].
  fold r1 in D1, H1.
  set (r2 := stage (asks ChTitle ch) _ r1.1 r1.2).
  destruct (stage_keeps c _ _ (asks ChTitle ch) r1.1 r1.2
              (handle_title_keeps book c (in_title inp)) D1 H1) as [D2 H2].
  fold r2 in D2, H2.
  set (r3 := stage (asks ChAuthor ch) _ r2.1 r2.2).
  destruct (stage_keeps c _ _ (asks ChAuthor ch) r2.1 r2.2
              (handle_author_keeps book c (in_author inp)) D2 H2) as [D3 H3].
  fold r3 in D3, H3.
  set (r4 := stage (asks ChQuantity ch) _ r3.1 r3.2).
  destruct (stage_keeps c _ _ (asks ChQuantity ch) r3.1 r3.2
              (handle_quantity_keeps book c (in_quantity inp)) D3 H3)
    as [D4 H4].
  fold r4 in D4, H4.
  set (r5 := stage (asks ChPrice ch) _ r4.1 r4.2).
  destruct (stage_keeps c _ _ (asks ChPrice ch) r4.1 r4.2
              (handle_price_keeps book c (in_price inp)) D4 H4) as [D5 H5].
  fold r5 in D5, H5.
  clearbody r5. clear r1 r2 r3 r4 D1 D2 D3 D4 H1 H2 H3 H4.
  match goal with
  | |- context [(if bool_decide ?P then ?a else ?b) ?x] =>
      set (chk := (if bool_decide P then a else b) x)
  end.
  assert (Dc : db chk.2 = c).
  { subst chk. case_bool_decide; [|done]. by rewrite validate_combined_db. }
  assert (Tc : chk.1 = true).
  { subst chk. case_bool_decide as Hboth; [|done].
    destruct Hboth. by eapply validate_combined_passes. }
  clearbody chk. destruct chk as [ok w']. simpl in *. subst ok.
  unfold ret. simpl. split; [exact Dc|]. split; [|by eexists].
  intros u [= <-]. destruct (r5.1).1; [done|apply staged_ok_no_updates].
Qed.

(** What the five handlers keep, [_process_update_choice] returns. *)
Lemma process_update_choice_keeps (P : Updates → Prop) ch book inp w :
  P no_updates →
  keeps (db w) P (λ u, _handle_id_update book u (in_id inp)) →
  keeps (db w) P (λ u, _handle_title_update book u (in_title inp)) →
  keeps (db w) P (λ u, _handle_author_update book u (in_author inp)) →
  keeps (db w) P (λ u, _handle_quantity_update book u (in_quantity inp)) →
  keeps (db w) P (λ u, _handle_price_update book u (in_price inp)) →
  ∀ u, (_process_update_choice ch book inp w).1 = Some u → P u.
Proof.
  intros H0 Ki Kt Ka Kq Kp. unfold _process_update_choice, bind.
  set (c := db w) in *.
  set (r1 := stage (asks ChId ch) _ _ w).
  destruct (stage_keeps c P _ (asks ChId ch) (false, no_updates) w
              Ki eq_refl H0) as [D1 H1].
  fold r1 in D1, H1.
  set (r2 := stage (asks ChTitle ch) _ r1.1 r1.2).
  destruct (stage_keeps c P _ (asks ChTitle ch) r1.1 r1.2
              Kt D1 H1) as [D2 H2].
  fold r2 in D2, H2.
  set (r3 := stage (asks ChAuthor ch) _ r2.1 r2.2).
  destruct (stage_keeps c P _ (asks ChAuthor ch) r2.1 r2.2
              Ka D2 H2) as [D3 H3].
  fold r3 in D3, H3.
  set (r4 := stage (asks ChQuantity ch) _ r3.1 r3.2).
  destruct (stage_keeps c P _ (asks ChQuantity ch) r3.1 r3.2
              Kq D3 H3) as [D4 H4].
  fold r4 in D4, H4.
  set (r5 := stage (asks ChPrice ch) _ r4.1 r4.2).
  destruct (stage_keeps c P _ (asks ChPrice ch) r4.1 r4.2
              Kp D4 H4) as [D5 H5].
  fold r5 in D5, H5.
  clearbody r5. clear r1 r2 r3 r4 D1 D2 D3 D4 H1 H2 H3 H4.
  match goal with
  | |- context [(if bool_decide ?Q then ?a else ?b) ?x] =>
      set (chk := (if bool_decide Q then a else b) x)
  end.
  clearbody chk. destruct chk as [[] w']; simpl; unfold ret; simpl;
    intros u [= <-].
  by destruct (r5.1).1.
Qed.

Lemma staged_ascii_no_updates : staged_ascii no_updates.
Proof. split; intros ? [=]. Qed.

Lemma handle_id_ascii book c a :
  keeps c staged_ascii (λ u, _handle_id_update book u a).
Proof.
  intros u w Hw Hu. unfold _handle_id_update.
  destruct a as [| |n]; run_m; [done..|].
  case_bool_decide; run_m; [done|]. rewrite Hw.
  destruct (_validate_id n (Some (bk_id book)) c); run_m; done.
Qed.

Lemma handle_title_ascii book c x :
  ascii_text x = true →
  keeps c staged_ascii (λ u, _handle_title_update book u x).
Proof.
  intros Hx u w Hw Hu. unfold _handle_title_update.
  destruct (Text.is_x x); run_m; [done|].
  case_bool_decide; run_m; [done|].
  destruct (_validate_text x); run_m; [done|]. rewrite Hw.
  destruct (_validate_duplicate _ _ _ c); run_m; [done|].
  split; [done|]. destruct Hu as [_ Ha]. split; [|done].
  simpl. intros ? [= <-]. by apply ascii_text_strip.
Qed.

Lemma handle_author_ascii book c x :
  ascii_text x = true →
  keeps c staged_ascii (λ u, _handle_author_update book u x).
Proof.
  intros Hx u w Hw Hu. unfold _handle_author_update.
  destruct (Text.is_x x); run_m; [done|].
  case_bool_decide; run_m; [done|].
  destruct (_validate_text x); run_m; [done|]. rewrite Hw.
  destruct (_validate_duplicate _ _ _ c); run_m; [done|].
  split; [done|]. destruct Hu as [Ht _]. split; [done|].
  simpl. intros ? [= <-]. by apply ascii_text_strip.
Qed.

Lemma handle_quantity_ascii book c a :
  keeps c staged_ascii (λ u, _handle_quantity_update book u a).
Proof.
  intros u w Hw Hu. unfold _handle_quantity_update.
  destruct a as [| |n]; run_m; [done..|].
  destruct (bool_decide (0 ≤ n)); run_m; [|done].
  case_bool_decide; run_m; [done|].
  destruct (_validate_quantity n); run_m; done.
Qed.

Lemma handle_price_ascii book c a :
  keeps c staged_ascii (λ u, _handle_price_update book u a).
Proof.
  intros u w Hw Hu. unfold _handle_price_update.
  destruct a as [| |p]; run_m; [done..|].
  destruct (Qeq_bool p (bk_price book)); run_m; [done|].
  destruct (_validate_price p); run_m; done.
Qed.

(** ASCII answers stage ASCII values. *)
Lemma process_update_choice_ascii ch book inp w u :
  ascii_inputs inp →
  (_process_update_choice ch book inp w).1 = Some u → staged_ascii u.
Proof.
  intros [Ht Ha]. apply process_update_choice_keeps.
  - apply staged_ascii_no_updates.
  - apply handle_id_ascii.
  - by apply handle_title_ascii.
  - by apply handle_author_ascii.
  - apply handle_quantity_ascii.
  - apply handle_price_ascii.
Qed.

End staging.

(** ** The manager: committing the staged changes *)

Section committing.
Import BookDatabase BookManager.
Implicit Types (c : Conn) (w : World) (u : Updates) (book : Book).

(** [_apply_updates] does what [apply_updates_outcome] says. *)
Lemma apply_updates_refines fl now book_id u w :
  console (_apply_updates fl now book_id u w).2 =
    console w ++ [(apply_updates_outcome fl now book_id u (db w)).1]
  ∧ view (db (_apply_updates fl now book_id u w).2) =
    (apply_updates_outcome fl now book_id u (db w)).2.
Proof.
  unfold _apply_updates, apply_updates_outcome.
  destruct (is_empty u) eqn:Eu; [done|].
  destruct (u_id u) as [n|] eqn:En.
  - run_m. unfold get_book.
    destruct (view (db w) !! book_id) as [r|] eqn:Er; simpl; [|done].
    destruct w as [[t [p|]] out]; simpl in *; [done|].
    unfold view in Er. simpl in Er.
    destruct fl as [fi fu fd]. simpl.
    unfold BookDatabase.add_book, BookDatabase.delete_book, implicit_begin,
      commit, rollback, write, view.
    simpl. destruct fi; simpl; [done|].
    destruct (t !! n) as [r'|] eqn:En'; simpl; [done|].
    destruct fd; simpl; done.
  - run_m. destruct fl as [fi fu fd]. simpl.
    pose proof (update_book_view book_id u now fu (db w)) as Hv.
    unfold BookDatabase.update_book in *. rewrite Eu in *. simpl in *.
    destruct fu; simpl in *; [done|].
    rewrite view_implicit_begin in *.
    destruct (view (db w) !! book_id) as [r|] eqn:Er; simpl in *; [|done].
    rewrite En in *. simpl in *.
    rewrite bool_decide_eq_false_2 in * by tauto. simpl in *.
    split; [done|]. by rewrite insert_delete_eq.
Qed.

End committing.

(** ** The natural key under the operations of the manager *)

Section natural_key.
Import BookDatabase BookManager.
Implicit Types (c : Conn) (w : World) (u : Updates) (book : Book).
Implicit Types (t : gmap Z Row) (r : Row).

Lemma natural_key_unique_delete t i :
  natural_key_unique t → natural_key_unique (delete i t).
Proof.
  intros Ht j k r1 r2 [_ H1]%lookup_delete_Some [_ H2]%lookup_delete_Some.
  by apply Ht.
Qed.

Lemma natural_key_unique_insert t i r :
  natural_key_unique t →
  (∀ j rj, j ≠ i → t !! j = Some rj →
     ¬ (Text.lower (title rj) = Text.lower (title r)
        ∧ Text.lower (author rj) = Text.lower (author r))) →
  natural_key_unique (<[i := r]> t).
Proof.
  intros Ht Hfresh j k r1 r2 H1 H2 Ht12 Ha12.
  apply lookup_insert_Some in H1 as [[<- <-]|[Hj H1]];
    apply lookup_insert_Some in H2 as [[<- <-]|[Hk H2]]; try done.
  - exfalso. by apply (Hfresh k r2).
  - exfalso. by apply (Hfresh j r1).
  - by apply (Ht j k r1 r2).
Qed.

Lemma ascii_table_insert t i r :
  ascii_table t →
  ascii_text (title r) = true → ascii_text (author r) = true →
  ascii_table (<[i := r]> t).
Proof.
  intros Ht Hr1 Hr2 j r' [[<- <-]|[_ H]]%lookup_insert_Some;
    [done|by apply (Ht j)].
Qed.

Lemma ascii_table_delete t i : ascii_table t → ascii_table (delete i t).
Proof. intros Ht j r' [_ H]%lookup_delete_Some. by apply (Ht j). Qed.

(** The title and the author a staged dictionary leads to are ASCII when
    the row and the staged values are. *)
Lemma staged_text_ascii r u :
  ascii_text (title r) = true → ascii_text (author r) = true →
  staged_ascii u →
  ascii_text (default (title r) (u_title u)) = true
  ∧ ascii_text (default (author r) (u_author u)) = true.
Proof.
  intros Ht Ha [St Sa]. split.
  - destruct (u_title u); simpl; auto.
  - destruct (u_author u); simpl; auto.
Qed.

(** The pair a staged dictionary leads to belongs to no other record, when
    it is written in ASCII: there the query of the handlers, which lets
    Python lower-case what it asks for, is the comparison of the natural
    key. *)
Lemma staged_key_fresh book c u r j rj :
  natural_key_unique (view c) →
  view c !! bk_id book = Some r →
  book = _row_to_dict (bk_id book) r →
  staged_ok book c u →
  ascii_text (default (title r) (u_title u)) = true →
  ascii_text (default (author r) (u_author u)) = true →
  j ≠ bk_id book → view c !! j = Some rj →
  ¬ (Text.lower (title rj) = Text.lower (default (title r) (u_title u))
     ∧ Text.lower (author rj) = Text.lower (default (author r) (u_author u))).
Proof.
  intros Hu Hr Hb [_ Hk] Hat Haa Hj Hrj [Ht Ha].
  destruct Hk as [[Et Ea]|Hdup].
  - rewrite Et, Ea in *. simpl in *. by apply Hj, (Hu j (bk_id book) rj r).
  - assert (is_duplicate_title_author
              (default (bk_title book) (u_title u))
              (default (bk_author book) (u_author u))
              (Some (bk_id book)) c = true) as Hd; [|congruence].
    apply is_duplicate_spec. exists j, rj. split; [done|].
    split; [|by apply excludes_other].
    apply same_key_spec. rewrite Hb. simpl.
    by rewrite !py_lower_ascii.
Qed.

(** What [_apply_updates] leaves is an ASCII table with a unique natural
    key when it was given one and ASCII values, as long as the DELETE of
    an identifier change is not refused. *)
Lemma apply_updates_keeps_natural_key fl now book u c :
  ascii_table (view c) →
  natural_key_unique (view c) →
  in_sync book c →
  staged_ok book c u →
  staged_ascii u →
  delete_fails fl = false →
  ascii_table (apply_updates_outcome fl now (bk_id book) u c).2
  ∧ natural_key_unique (apply_updates_outcome fl now (bk_id book) u c).2.
Proof.
  intros Hasc Hu Hs Hst Hsa Hfd. unfold apply_updates_outcome.
  apply get_book_Some in Hs as (r & Hr & Hb).
  destruct (Hasc _ _ Hr) as [Hrt Hra].
  destruct (staged_text_ascii r u Hrt Hra Hsa) as [Hat Haa].
  destruct (is_empty u); [done|].
  destruct (u_id u) as [n|] eqn:En; rewrite Hr.
  - destruct (pending c); [done|].
    destruct (insert_fails fl); [done|].
    destruct (view c !! n) eqn:Hn; [done|]. rewrite Hfd. simpl.
    destruct Hst as [Hi Hk]. destruct (Hi n En) as [Hne _]. split.
    { by apply ascii_table_delete, ascii_table_insert. }
    rewrite delete_insert_ne by done.
    apply natural_key_unique_insert; [by apply natural_key_unique_delete|].
    intros j rj Hj [Hjb Hrj]%lookup_delete_Some. simpl.
    by apply (staged_key_fresh book c u r j rj).
  - destruct (update_fails fl); [done|]. simpl. split.
    { by apply ascii_table_insert. }
    apply natural_key_unique_insert; [done|].
    intros j rj Hj Hrj. simpl.
    by apply (staged_key_fresh book c u r j rj).
Qed.

(** The loop of [update_book] keeps the table ASCII and the natural key
    unique. *)
Lemma update_loop_keeps_natural_key steps :
  Forall (λ st, delete_fails (step_faults st) = false) steps →
  Forall (λ st, ascii_inputs (inputs st)) steps →
  ∀ book w,
    ascii_table (view (db w)) →
    natural_key_unique (view (db w)) →
    in_sync book (db w) →
    ascii_table (view (db (update_loop steps book w).2))
    ∧ natural_key_unique (view (db (update_loop steps book w).2)).
Proof.
  induction 1 as [|st steps Hst Hsteps IH]; intros Hin book w Ha Hu Hs.
  - done.
  - apply Forall_cons in Hin as [Hin1 Hin]. specialize (IH Hin).
    simpl. run_m.
    set (w1 := mkWorld (db w) (console w ++ [Details book])).
    destruct (process_update_choice_staged (choice st) book (inputs st) w1)
      as (Hdb & Hok & _).
    pose proof (process_update_choice_ascii (choice st) book (inputs st) w1)
      as Hasc.
    change (db w1) with (db w) in *.
    destruct (_process_update_choice (choice st) book (inputs st) w1)
      as [[u|] w2] eqn:Ep; simpl in *.
    + destruct (is_empty u) eqn:Eu.
      * apply IH; simpl; by rewrite Hdb.
      * destruct (apply_updates_refines (step_faults st) (step_time st)
                    (bk_id book) u w2) as [_ Hv].
        set (w3 := (_apply_updates _ _ _ u w2).2) in *.
        assert (ascii_table (view (db w3))
                ∧ natural_key_unique (view (db w3))) as [Ha3 Hu3].
        { rewrite Hv, Hdb.
          apply apply_updates_keeps_natural_key; auto. }
        destruct (get_book _ (db w3)) as [b|] eqn:Eb; simpl; [|done].
        apply IH; [done..|]. unfold in_sync.
        by rewrite (get_book_id _ _ _ Eb).
    + apply IH; by rewrite Hdb.
Qed.

End natural_key.

(** ** The manager: single handlers on given answers *)

Section answers.
Import BookDatabase BookManager.
Implicit Types (c : Conn) (w : World) (u : Updates) (book : Book).

Lemma natural_key_uniqueb_spec (t : gmap Z Row) :
  natural_key_uniqueb t = true → natural_key_unique t.
Proof.
  unfold natural_key_uniqueb. rewrite forallb_forall.
  intros H i j r1 r2 H1 H2 Ht Ha.
  apply elem_of_map_to_list, list_elem_of_In in H1, H2.
  specialize (H _ H2). rewrite forallb_forall in H.
  specialize (H _ H1). simpl in H.
  rewrite !bool_decide_eq_true_2 in H by done. simpl in H.
  by apply bool_decide_eq_true in H.
Qed.

Lemma handle_id_staged book u n w :
  n ≠ bk_id book → 0 < n → view (db w) !! n = None →
  _handle_id_update book u (Typed n) w = ((true, set_id n u), w).
Proof.
  intros Hne Hpos Hfree. unfold _handle_id_update.
  rewrite bool_decide_eq_false_2 by done. run_m. unfold _validate_id.
  rewrite bool_decide_eq_false_2 by lia.
  apply get_book_None in Hfree. by rewrite Hfree.
Qed.

Lemma handle_title_staged book u t w :
  Text.is_x t = false → Text.strip t ≠ bk_title book →
  Text.strip t ≠ EmptyString →
  is_duplicate_title_author (Text.strip t)
    (default (bk_author book) (u_author u)) (Some (bk_id book)) (db w)
  = false →
  _handle_title_update book u t w = ((true, set_title (Text.strip t) u), w).
Proof.
  intros Hx Hne Hblank Hdup. unfold _handle_title_update, _validate_text.
  rewrite Hx. rewrite !bool_decide_eq_false_2 by done. run_m.
  unfold _validate_duplicate. by rewrite Hdup.
Qed.

Lemma handle_author_staged book u a w :
  Text.is_x a = false → Text.strip a ≠ bk_author book →
  Text.strip a ≠ EmptyString →
  is_duplicate_title_author (default (bk_title book) (u_title u))
    (Text.strip a) (Some (bk_id book)) (db w) = false →
  _handle_author_update book u a w = ((true, set_author (Text.strip a) u), w).
Proof.
  intros Hx Hne Hblank Hdup. unfold _handle_author_update, _validate_text.
  rewrite Hx. rewrite !bool_decide_eq_false_2 by done. run_m.
  unfold _validate_duplicate. by rewrite Hdup.
Qed.

Lemma handle_author_rejected book u a w :
  Text.is_x a = false → Text.strip a ≠ bk_author book →
  Text.strip a ≠ EmptyString →
  is_duplicate_title_author (default (bk_title book) (u_title u))
    (Text.strip a) (Some (bk_id book)) (db w) = true →
  _handle_author_update book u a w =
  ((false, u), mkWorld (db w) (console w ++ [Invalid Duplicate])).
Proof.
  intros Hx Hne Hblank Hdup. unfold _handle_author_update, _validate_text.
  rewrite Hx. rewrite !bool_decide_eq_false_2 by done. run_m.
  unfold _validate_duplicate. by rewrite Hdup.
Qed.






End answers.

Section commands.
Import BookDatabase BookManager.
Implicit Types (c : Conn) (w : World) (u : Updates) (book : Book).

Lemma get_book_to_update_sync targets w :
  db (_get_book_to_update targets w).2 = db w
  ∧ ∀ b, (_get_book_to_update targets w).1 = Some b → in_sync b (db w).
Proof.
  revert w. induction targets as [|val rest IH]; intros w; [done|].
  simpl. destruct val as [| |z]; run_m; [done|apply (IH (mkWorld _ _))|].
  destruct (bool_decide (0 ≤ z)); run_m; [|apply (IH (mkWorld _ _))].
  destruct (get_book z (db w)) as [b|] eqn:Eb; run_m;
    [|apply (IH (mkWorld _ _))].
  split; [done|]. intros ? [= <-]. unfold in_sync.
  by rewrite (get_book_id _ _ _ Eb).
Qed.

Lemma update_book_keeps_natural_key targets steps w :
  Forall (λ st, delete_fails (step_faults st) = false) steps →
  Forall (λ st, ascii_inputs (inputs st)) steps →
  ascii_table (view (db w)) →
  natural_key_unique (view (db w)) →
  ascii_table (view (db (BookManager.update_book targets steps w).2))
  ∧ natural_key_unique
      (view (db (BookManager.update_book targets steps w).2)).
Proof.
  intros Hsteps Hin Ha Hu. unfold BookManager.update_book. run_m.
  destruct (get_book_to_update_sync targets w) as [Hdb Hs].
  destruct (_get_book_to_update targets w) as [[b|] w1]; simpl in *.
  - apply update_loop_keeps_natural_key; [done|done|by rewrite Hdb..|].
    rewrite Hdb. by apply Hs.
  - by rewrite Hdb.
Qed.

Lemma add_book_pass_keeps_natural_key now fault inp w :
  ascii_inputs inp →
  ascii_table (view (db w)) →
  natural_key_unique (view (db w)) →
  ascii_table (view (db (add_book_pass now fault inp w).2))
  ∧ natural_key_unique (view (db (add_book_pass now fault inp w).2)).
Proof.
  intros [Hit Hia] Hasc Hu. unfold add_book_pass.
  destruct (in_id inp) as [| |id_val]; run_m; [done..|].
  destruct (bool_decide (0 ≤ id_val)); run_m; [|done].
  destruct (_validate_id id_val None (db w)); run_m; [done|].
  destruct (Text.is_x (in_title inp)); run_m; [done|].
  destruct (_validate_text (in_title inp)); run_m; [done|].
  destruct (Text.is_x (in_author inp)); run_m; [done|].
  destruct (_validate_text (in_author inp)); run_m; [done|].
  destruct (_validate_duplicate _ _ None (db w)) eqn:Hd; run_m; [done|].
  destruct (in_quantity inp) as [| |qty]; run_m; [done..|].
  destruct (bool_decide (0 ≤ qty)); run_m; [|done].
  destruct (_validate_quantity qty); run_m; [done|].
  destruct (in_price inp) as [| |p]; run_m; [done..|].
  destruct (_validate_price p); run_m; [done|].
  match goal with
  | |- context [BookDatabase.add_book ?d now fault (db w)] =>
      pose proof (add_book_view d now fault (db w)) as Hv;
      destruct (BookDatabase.add_book d now fault (db w)) as [[] c']
  end; simpl in *; rewrite Hv; [|done].
  pose proof (ascii_text_strip _ Hit) as Hst.
  pose proof (ascii_text_strip _ Hia) as Hsa.
  split; [by apply ascii_table_insert|].
  apply natural_key_unique_insert; [done|].
  intros j rj _ Hrj [Ht Ha]. simpl in *.
  apply validate_duplicate_None in Hd.
  assert (is_duplicate_title_author (Text.strip (in_title inp))
            (Text.strip (in_author inp)) None (db w) = true) as Hd';
    [|congruence].
  apply is_duplicate_spec. exists j, rj. split; [done|]. split; [|done].
  apply same_key_spec. by rewrite !py_lower_ascii.
Qed.

Lemma add_book_keeps_natural_key now fault forms w :
  Forall ascii_inputs forms →
  ascii_table (view (db w)) →
  natural_key_unique (view (db w)) →
  ascii_table (view (db (BookManager.add_book now fault forms w).2))
  ∧ natural_key_unique
      (view (db (BookManager.add_book now fault forms w).2)).
Proof.
  intros Hin. revert w.
  induction Hin as [|inp rest Hinp _ IH]; intros w Ha Hu; [done|].
  simpl. run_m.
  destruct (add_book_pass_keeps_natural_key now fault inp w Hinp Ha Hu)
    as [Ha1 Hu1].
  destruct (add_book_pass now fault inp w) as [[] w1]; simpl in *;
    [by apply IH|done].
Qed.

Lemma delete_book_keeps_natural_key fault script w :
  ascii_table (view (db w)) →
  natural_key_unique (view (db w)) →
  ascii_table (view (db (BookManager.delete_book fault script w).2))
  ∧ natural_key_unique
      (view (db (BookManager.delete_book fault script w).2)).
Proof.
  revert w.
  induction script as [|[val confirm] rest IH]; intros w Ha Hu; [done|].
  simpl. destruct val as [| |z]; run_m; [done|by apply (IH (mkWorld _ _))|].
  destruct (bool_decide (0 ≤ z)); run_m; [|by apply (IH (mkWorld _ _))].
  destruct (get_book z (db w)) as [b|]; run_m; [|by apply (IH (mkWorld _ _))].
  destruct confirm; run_m; [|done].
  destruct fault.
  - unfold BookDatabase.delete_book. simpl. by rewrite view_implicit_begin.
  - pose proof (delete_book_view z (db w)) as Hv.
    assert (ascii_table (view (BookDatabase.delete_book z false (db w)).2)
            ∧ natural_key_unique
                (view (BookDatabase.delete_book z false (db w)).2)) as Hu'.
    { rewrite Hv. split; [by apply ascii_table_delete|].
      by apply natural_key_unique_delete. }
    destruct (BookDatabase.delete_book z false (db w)) as [[[]|e] c'];
      simpl in *; done.
Qed.

Lemma run_command_keeps_natural_key fl cmd w :
  deletes_go_through cmd →
  ascii_command cmd →
  ascii_table (view (db w)) →
  natural_key_unique (view (db w)) →
  ascii_table (view (db (run_command fl cmd w).2))
  ∧ natural_key_unique (view (db (run_command fl cmd w).2)).
Proof.
  destruct cmd as [now forms|targets steps|script]; simpl;
    intros Hd Hc Ha Hu.
  - run_m. by apply add_book_keeps_natural_key.
  - by apply update_book_keeps_natural_key.
  - by apply delete_book_keeps_natural_key.
Qed.

Lemma run_keeps_natural_key fl cmds w :
  Forall deletes_go_through cmds →
  Forall ascii_command cmds →
  ascii_table (view (db w)) →
  natural_key_unique (view (db w)) →
  ascii_table (view (db (run fl cmds w).2))
  ∧ natural_key_unique (view (db (run fl cmds w).2)).
Proof.
  intros Hcmds. revert w.
  induction Hcmds as [|cmd cmds Hcmd _ IH]; intros w Hc Ha Hu; [done|].
  apply Forall_cons in Hc as [Hc1 Hc].
  simpl. run_m.
  destruct (run_command_keeps_natural_key fl cmd w Hcmd Hc1 Ha Hu)
    as [Ha1 Hu1].
  destruct (run_command fl cmd w) as [[|e] w1]; simpl in *; [by apply IH|done].
Qed.

(** [ascii_table] is decided by looking at every row. *)
Lemma ascii_tableb_spec t :
  forallb (λ kr : Z * Row,
             ascii_text (title kr.2) && ascii_text (author kr.2))
          (map_to_list t) = true →
  ascii_table t.
Proof.
  intros H i r Hr. rewrite forallb_forall in H.
  specialize (H (i, r)). simpl in H.
  apply andb_true_iff, H, list_elem_of_In, elem_of_map_to_list, Hr.
Qed.

(** The sample rows have five different natural keys, so every store the
    manager reaches from a fresh database has a unique natural key. *)
Lemma setup_natural_key now :
  natural_key_unique (view (_setup now (open_conn ∅))).
Proof. apply natural_key_uniqueb_spec. vm_compute. reflexivity. Qed.

Lemma setup_ascii now : ascii_table (view (_setup now (open_conn ∅))).
Proof. apply ascii_tableb_spec. vm_compute. reflexivity. Qed.

Lemma reachable_natural_key now fl cmds :
  Forall deletes_go_through cmds →
  Forall ascii_command cmds →
  natural_key_unique
    (view (db (run fl cmds (start (_setup now (open_conn ∅)))).2)).
Proof.
  intros H Hc.
  apply run_keeps_natural_key;
    [done|done|apply setup_ascii|apply setup_natural_key].
Qed.

End commands.

(** ** The manager: one turn of an update session *)

Section session.
Import BookDatabase BookManager.
Implicit Types (c : Conn) (w : World) (u : Updates) (book : Book).



End session.

(** ** Claims about the update engine *)

Section engine_claims.
Import BookDatabase BookManager.
Implicit Types (c : Conn) (w : World) (u : Updates) (book : Book).






End engine_claims.

(** ** Claims about the store alone *)

Section store_claims.
Import BookDatabase.
Implicit Types (c : Conn) (r : Row) (u : Updates).

(** C8: when a record with the id exists, [delete_book] answers [True] and
    [get_book] then finds nothing; when none exists, it answers [False] and
    the table is what it was.  (The DELETE itself is not refused.) *)
Theorem delete_book_spec c book_id :
  match get_book book_id c with
  | Some _ =>
      (delete_book book_id false c).1 = Ok true
      ∧ get_book book_id (delete_book book_id false c).2 = None
  | None =>
      (delete_book book_id false c).1 = Ok false
      ∧ view (delete_book book_id false c).2 = view c
  end.
Proof.
  unfold get_book, delete_book. simpl. rewrite view_implicit_begin.
  destruct (view c !! book_id) as [r|] eqn:E; simpl.
  - split; [done|]. rewrite view_commit, view_write.
    by rewrite lookup_delete_eq.
  - split; [done|]. by apply delete_id.
Qed.

(** On a connection with no open transaction, deleting an absent id gives
    back the very same connection. *)
Lemma delete_book_absent_idle c book_id :
  idle c → get_book book_id c = None →
  delete_book book_id false c = (Ok false, c).
Proof.
  destruct c as [t p]. unfold idle. simpl. intros -> H%get_book_None.
  change (t !! book_id = None) in H.
  unfold delete_book, implicit_begin, commit, write, view. simpl.
  rewrite H, delete_id by done. rewrite bool_decide_eq_false_2; [done|].
  by intros [? ?].
Qed.




(** With no key in [updates] the statement does not parse and the answer is
    [False], whether the record exists or not. *)
Lemma update_book_no_field book_id now fault c :
  update_book book_id no_updates now fault c = (false, c).
Proof. reflexivity. Qed.

Lemma matches_no_filters b : matches no_filters b = true.
Proof. reflexivity. Qed.

Lemma filter_all {A} (P : A → Prop) `{∀ x, Decision (P x)} (l : list A) :
  (∀ x, P x) → filter P l = l.
Proof.
  intros HP. induction l as [|x l IH]; [done|].
  rewrite filter_cons_True by done. by rewrite IH.
Qed.

(** C10: with no filter, [search_books] returns the whole inventory: what
    [get_all_books] returns, that is one dictionary per row of the table
    and nothing else. *)
Theorem search_books_no_filters c :
  search_books no_filters c = get_all_books c
  ∧ ∀ i r, view c !! i = Some r ↔
           _row_to_dict i r ∈ search_books no_filters c.
Proof.
  assert (E : search_books no_filters c = get_all_books c).
  { unfold search_books. apply filter_all. intros b. apply matches_no_filters. }
  split; [done|]. intros i r. rewrite E. unfold get_all_books.
  rewrite list_elem_of_fmap. split.
  - intros H. exists (i, r). split; [done|]. by apply elem_of_map_to_list.
  - intros ([j r'] & Heq & Hin). simpl in Heq.
    apply row_to_dict_inj in Heq as [-> ->]. by apply elem_of_map_to_list.
Qed.

End store_claims.

Section identifier_change.
Import BookDatabase BookManager.
Implicit Types (c : Conn) (w : World) (u : Updates) (book : Book).

(** When [_apply_updates] reports success, the table is the one of the
    successful case. *)
Lemma apply_updates_success fl now book_id u w r :
  view (db w) !! book_id = Some r →
  console (_apply_updates fl now book_id u w).2 = console w ++ [Updated] →
  view (db (_apply_updates fl now book_id u w).2) =
  match u_id u with
  | Some n => delete book_id (<[n := replacement u now r]> (view (db w)))
  | None => <[book_id := set_fields u now r]> (view (db w))
  end
  ∧ ∀ n, u_id u = Some n → n ≠ book_id.
Proof.
  intros Hr Hmsg.
  destruct (apply_updates_refines fl now book_id u w) as [Hc Hv].
  rewrite Hc in Hmsg. apply app_inj_tail in Hmsg as [_ Hmsg].
  rewrite Hv. clear Hc Hv. revert Hmsg. unfold apply_updates_outcome.
  destruct (is_empty u); [done|]. rewrite Hr.
  destruct (u_id u) as [n|].
  - destruct (pending (db w)); [done|].
    destruct (insert_fails fl); [done|].
    destruct (view (db w) !! n) eqn:Hn; [done|].
    destruct (delete_fails fl); [done|]. intros _. split; [done|].
    intros ? [= <-] ->. congruence.
  - destruct (update_fails fl); [done|]. done.
Qed.

(** C6 (as amended): after a successful field update the record has
    [last_updated] set to the time of the update and its [date_added] as
    before; after a successful identifier change the record under the new
    id has both [last_updated] and [date_added] set to the time of the
    change. *)
Theorem timestamps_after_update fl now book_id u w r :
  view (db w) !! book_id = Some r →
  console (_apply_updates fl now book_id u w).2 = console w ++ [Updated] →
  ∃ r',
    view (db (_apply_updates fl now book_id u w).2)
      !! default book_id (u_id u) = Some r'
    ∧ last_updated r' = now
    ∧ date_added r' = match u_id u with
                      | Some _ => now
                      | None => date_added r
                      end.
Proof.
  intros Hr Hmsg.
  destruct (apply_updates_success fl now book_id u w r Hr Hmsg) as [Hv Hne].
  rewrite Hv. destruct (u_id u) as [n|]; simpl.
  - exists (replacement u now r).
    rewrite lookup_delete_ne by (intros ->; by eapply Hne).
    by rewrite lookup_insert_eq.
  - exists (set_fields u now r). by rewrite lookup_insert_eq.
Qed.

Lemma timestamps_after_update_witness :
  let u := set_quantity 9 no_updates in
  let w' := (_apply_updates no_faults t1 3001 u (start store_3001)).2 in
  ∃ r', view (db w') !! 3001 = Some r'
        ∧ last_updated r' = t1 ∧ date_added r' = t0.
Proof.
  intros u w'.
  apply (timestamps_after_update no_faults t1 3001 u (start store_3001)
           (mkRow "A" "B" 5 (10 # 1) t0 t0)); reflexivity.
Defined.

(** The claim as first stated fails: an identifier change does not keep
    [date_added]. *)
Lemma identifier_change_resets_date_added :
  let w' := (_apply_updates no_faults t1 3001 (set_id 3002 no_updates)
               (start store_3001)).2 in
  console w' = [Updated]
  ∧ bk_date_added <$> get_book 3001 store_3001 = Some t0
  ∧ bk_date_added <$> get_book 3002 (db w') = Some t1
  ∧ t1 ≠ t0.
Proof. repeat split; try reflexivity. discriminate. Qed.

(** C3 (as amended): for a store that holds {3001, "A", "B", 5, 10.0} and
    no record 3002, a session that selects 3001 and changes only the id to
    3002 ends with no record 3001 and with record 3002 holding the same
    title, author, quantity and price; both [date_added] and
    [last_updated] of the new record are the time of the change. *)
Theorem identifier_change_scenario c d up now inp :
  idle c →
  view c !! 3001 = Some (mkRow "A" "B" 5 (10 # 1) d up) →
  view c !! 3002 = None →
  in_id inp = Typed 3002 →
  let r := BookManager.update_book [Typed 3001]
             [mkStep ChId inp now no_faults] (start c) in
  r.1 = Returned
  ∧ get_book 3001 (db r.2) = None
  ∧ get_book 3002 (db r.2) = Some (mkBook 3002 "A" "B" 5 (10 # 1) now now)
  ∧ Updated ∈ console r.2.
Proof.
  intros Hidle Hold Hnew Hinp. unfold BookManager.update_book. simpl. run_m.
  assert (get_book 3001 c = Some (mkBook 3001 "A" "B" 5 (10 # 1) d up)) as Hg.
  { unfold get_book. by rewrite Hold. }
  rewrite Hg. simpl.
  set (book := mkBook 3001 "A" "B" 5 (10 # 1) d up).
  set (w1 := mkWorld c [Details book]).
  assert (_process_update_choice ChId book inp w1
          = (Some (set_id 3002 no_updates), w1)) as Ep.
  { unfold _process_update_choice. simpl. unfold bind. rewrite Hinp.
    rewrite (handle_id_staged book no_updates 3002 w1) by (done || lia).
    reflexivity. }
  rewrite Ep. simpl.
  destruct (apply_updates_refines no_faults now 3001 (set_id 3002 no_updates)
              w1) as [Hc Hv].
  set (w3 := (_apply_updates no_faults now 3001 _ w1).2) in *.
  assert (apply_updates_outcome no_faults now 3001 (set_id 3002 no_updates) c
          = (Updated,
             delete 3001 (<[3002 := mkRow "A" "B" 5 (10 # 1) now now]>
                            (view c)))) as Eo.
  { unfold apply_updates_outcome. simpl. rewrite Hold, Hidle, Hnew. done. }
  change (db w1) with c in *. rewrite Eo in Hc, Hv. simpl in Hc, Hv.
  assert (get_book 3002 (db w3)
          = Some (mkBook 3002 "A" "B" 5 (10 # 1) now now)) as Hg2.
  { unfold get_book. rewrite Hv, lookup_delete_ne by done.
    by rewrite lookup_insert_eq. }
  rewrite Hg2. simpl. repeat split.
  - unfold get_book. by rewrite Hv, lookup_delete_eq.
  - done.
  - rewrite Hc. set_solver.
Qed.

Lemma identifier_change_scenario_witness :
  let r := BookManager.update_book [Typed 3001]
             [mkStep ChId (mkInputs (Typed 3002) "x" "x" TypedX TypedX) t1
                no_faults] (start store_3001) in
  r.1 = Returned
  ∧ get_book 3001 (db r.2) = None
  ∧ get_book 3002 (db r.2) = Some (mkBook 3002 "A" "B" 5 (10 # 1) t1 t1)
  ∧ Updated ∈ console r.2.
Proof.
  apply (identifier_change_scenario store_3001 t0 t0 t1
           (mkInputs (Typed 3002) "x" "x" TypedX TypedX)); reflexivity.
Defined.

(** The claim as first stated fails: the record found under 3002 differs
    from the original in [date_added] as well. *)
Lemma date_added_not_carried_over :
  let r := BookManager.update_book [Typed 3001]
             [mkStep ChId (mkInputs (Typed 3002) "x" "x" TypedX TypedX) t1
                no_faults] (start store_3001) in
  get_book 3001 store_3001 = Some (mkBook 3001 "A" "B" 5 (10 # 1) t0 t0)
  ∧ ¬ ∃ b, get_book 3002 (db r.2) = Some b ∧ bk_date_added b = t0.
Proof.
  split; [reflexivity|]. intros (b & Hb & Hd).
  vm_compute in Hb. injection Hb as <-. discriminate Hd.
Qed.

(** C1, on the code: the DELETE of an identifier change is refused after
    the INSERT went through.  [add_book] has already committed the new
    record, so the rollback has nothing to undo: the store ends with the
    old record and the new one. *)
Theorem identifier_change_not_atomic :
  let w' := (_apply_updates (mkFaults false false true) t1 3001
               (set_id 3002 no_updates) (start store_3001)).2 in
  console w' = [FailedToUpdateId EngineFault]
  ∧ idle (db w')
  ∧ get_book 3001 (db w') = Some (mkBook 3001 "A" "B" 5 (10 # 1) t0 t0)
  ∧ get_book 3002 (db w') = Some (mkBook 3002 "A" "B" 5 (10 # 1) t1 t1).
Proof. repeat split; reflexivity. Qed.

(** The same for every store: once the INSERT is through and the DELETE is
    refused, both ids are in the table. *)
Lemma identifier_change_delete_refused fl now book_id n u w r :
  idle (db w) →
  view (db w) !! book_id = Some r → view (db w) !! n = None →
  u_id u = Some n → insert_fails fl = false → delete_fails fl = true →
  view (db (_apply_updates fl now book_id u w).2) =
  <[n := replacement u now r]> (view (db w)).
Proof.
  intros Hidle Hr Hn Hu Hfi Hfd.
  destruct (apply_updates_refines fl now book_id u w) as [_ ->].
  unfold apply_updates_outcome. destruct u as [[i|] ? ? ? ?]; [|done].
  simpl in *. injection Hu as ->. by rewrite Hr, Hidle, Hfi, Hn, Hfd.
Qed.

(** When the INSERT itself is refused, the table is what it was. *)
Lemma identifier_change_insert_refused fl now book_id n u w :
  u_id u = Some n → insert_fails fl = true →
  view (db (_apply_updates fl now book_id u w).2) = view (db w).
Proof.
  intros Hu Hfi.
  destruct (apply_updates_refines fl now book_id u w) as [_ ->].
  unfold apply_updates_outcome. destruct (is_empty u); [done|].
  rewrite Hu, Hfi. destruct (view (db w) !! book_id); [|done].
  by destruct (pending (db w)).
Qed.

End identifier_change.

Section combined_edit.
Import BookDatabase BookManager.
Implicit Types (c : Conn) (w : World) (u : Updates) (book : Book).

(** What a combined edit does when the pair it proposes is taken.  The
    store holds a record [i1] whose title and author read, in SQLite's
    lower case, as the answers T and A read in Python's, and a record [i2]
    with another title and another author, and no other record has title T
    with the author of [i2].  A session on [i2] that answers T for the
    title and A for the author in the same pass (neither being the answer
    "x" nor blank) has the author refused with the duplicate message, and
    the title staged and committed: afterwards [i2] holds title T with its
    old author and [last_updated] set to the time of the update, and the
    rest of the table is as before. *)
Lemma duplicate_author_keeps_title_edit c i1 r1 i2 r2 t a now fl :
  view c !! i1 = Some r1 →
  view c !! i2 = Some r2 →
  i1 ≠ i2 →
  0 ≤ i2 →
  update_fails fl = false →
  Text.is_x t = false → Text.strip t ≠ EmptyString →
  Text.strip t ≠ title r2 →
  Text.is_x a = false → Text.strip a ≠ EmptyString →
  Text.strip a ≠ author r2 →
  Text.lower (title r1) = Text.py_lower (Text.strip t) →
  Text.lower (author r1) = Text.py_lower (Text.strip a) →
  is_duplicate_title_author (Text.strip t) (author r2) (Some i2) c = false →
  let b2 := _row_to_dict i2 r2 in
  let r2' := mkRow (Text.strip t) (author r2) (quantity r2) (price r2)
               (date_added r2) now in
  let r := BookManager.update_book [Typed i2]
             [mkStep ChAll (mkInputs TypedX t a TypedX TypedX) now fl]
             (start c) in
  r.1 = Returned
  ∧ view (db r.2) = <[i2 := r2']> (view c)
  ∧ console r.2 = [Details b2; Invalid Duplicate; Updated;
                   Details (_row_to_dict i2 r2'); Cancelled].
Proof.
  intros H1 H2 Hne Hpos Hfu Hxt Hbt Hnt Hxa Hba Hna Hlt Hla Hfree b2 r2'.
  unfold BookManager.update_book. simpl. run_m.
  rewrite bool_decide_eq_true_2 by done. simpl.
  assert (get_book i2 c = Some b2) as Hg by (unfold get_book; by rewrite H2).
  rewrite Hg. simpl.
  set (w1 := mkWorld c [Details b2]).
  set (w2 := mkWorld c [Details b2; Invalid Duplicate]).
  set (u := set_title (Text.strip t) no_updates).
  assert (_process_update_choice ChAll b2
            (mkInputs TypedX t a TypedX TypedX) w1 = (Some u, w2)) as Ep.
  { unfold _process_update_choice, stage. simpl. unfold bind. simpl.
    rewrite (handle_title_staged b2 no_updates t w1) by done. simpl.
    rewrite (handle_author_rejected b2 _ a w1); try done.
    apply is_duplicate_spec. exists i1, r1. split; [done|].
    split; [by apply same_key_spec|by apply excludes_other]. }
  rewrite Ep. simpl.
  destruct (apply_updates_refines fl now i2 u w2) as [Hc Hv].
  set (w3 := (_apply_updates fl now i2 u w2).2) in *.
  assert (apply_updates_outcome fl now i2 u c
          = (Updated, <[i2 := r2']> (view c))) as Eo.
  { unfold apply_updates_outcome. simpl. by rewrite Hfu, H2. }
  change (db w2) with c in *. rewrite Eo in Hc, Hv. simpl in Hc, Hv.
  assert (get_book i2 (db w3) = Some (_row_to_dict i2 r2')) as Hg3.
  { unfold get_book. by rewrite Hv, lookup_insert_eq. }
  rewrite Hg3. simpl. by rewrite Hc.
Qed.

(** C2: in the scenario of the claim, with titles that are not the skip
    answer "x": the store holds record 1, "Emma" by "Jane Austen", and
    record 2, "Dune" by "Frank Herbert"; a session on record 2 answers
    "Emma" and "Jane Austen" in one pass.  The author is refused as a
    duplicate, but the session is not discarded: the title "Emma" is
    written to record 2 and the console says "updated".  The docstring of
    [_process_update_choice] ("None if validation failed") and its final
    combined check say that the whole change was meant to be dropped. *)
Theorem combined_edit_half_applied :
  let r := BookManager.update_book [Typed 2]
             [mkStep ChAll (mkInputs TypedX "Emma" "Jane Austen" TypedX TypedX)
                t1 no_faults] (start store_novels) in
  r.1 = Returned
  ∧ view (db r.2) =
    <[2 := mkRow "Emma" "Frank Herbert" 7 (8 # 1) t0 t1]> (view store_novels)
  ∧ view (db r.2) ≠ view store_novels
  ∧ console r.2 =
    [Details (mkBook 2 "Dune" "Frank Herbert" 7 (8 # 1) t0 t0);
     Invalid Duplicate; Updated;
     Details (mkBook 2 "Emma" "Frank Herbert" 7 (8 # 1) t0 t1); Cancelled].
Proof.
  intros r.
  destruct (duplicate_author_keeps_title_edit store_novels
           1 (mkRow "Emma" "Jane Austen" 4 (12 # 1) t0 t0)
           2 (mkRow "Dune" "Frank Herbert" 7 (8 # 1) t0 t0)
           "Emma" "Jane Austen" t1 no_faults) as (H1 & H2 & H3);
    try reflexivity; try lia; try (vm_compute; discriminate).
  fold r in H1, H2, H3. by split_and!.
Qed.

(** The store changes whichever way the scenario is read.  With the titles
    as written, the answer "X" to the title prompt means "skip", the author
    "Y" is accepted next to the title "Z" and committed.  With titles that
    are not the answer "x", the author is refused and the title is
    committed. *)
Lemma combined_edit_changes_store :
  let inp_xy := mkInputs TypedX "X" "Y" TypedX TypedX in
  let r_xy := BookManager.update_book [Typed 2]
                [mkStep ChAll inp_xy t1 no_faults] (start store_xy) in
  let inp_n := mkInputs TypedX "Emma" "Jane Austen" TypedX TypedX in
  let r_n := BookManager.update_book [Typed 2]
               [mkStep ChAll inp_n t1 no_faults] (start store_novels) in
  (get_book 2 (db r_xy.2) = Some (mkBook 2 "Z" "Y" 7 (8 # 1) t0 t1)
   ∧ (Invalid Duplicate ∉ console r_xy.2)
   ∧ db r_xy.2 ≠ store_xy)
  ∧ (get_book 2 (db r_n.2)
     = Some (mkBook 2 "Emma" "Frank Herbert" 7 (8 # 1) t0 t1)
     ∧ db r_n.2 ≠ store_novels).
Proof.
  repeat split.
  - vm_compute. intros H.
    repeat (apply elem_of_cons in H as [H|H]; [discriminate H|]).
    by apply elem_of_nil in H.
  - intros H. apply (f_equal (get_book 2)) in H. vm_compute in H. discriminate.
  - intros H. apply (f_equal (get_book 2)) in H. vm_compute in H. discriminate.
Qed.

End combined_edit.

Section natural_key_claims.
Import BookDatabase BookManager.
Implicit Types (c : Conn) (w : World) (u : Updates) (book : Book).




(** Outside ASCII the check of the add form misses an exact duplicate:
    SQLite's [lower] leaves the stored capital E with an acute accent (code
    201) as it is, Python's [lower] turns the typed one into the small
    letter, and the two are compared.  The form adds a second "Émile" by
    "Zola". *)
Lemma add_form_accepts_accented_duplicate :
  let emile := String "201" "mile" in
  let c := open_conn {[ 1 := mkRow emile "Zola" 4 (12 # 1) t0 t0 ]} in
  let inp := mkInputs (Typed 2) emile "Zola" (Typed 1) (Typed (5 # 1)) in
  let r := add_book_pass t1 false inp (start c) in
  r.1 = Finished
  ∧ get_book 1 (db r.2) = Some (mkBook 1 emile "Zola" 4 (12 # 1) t0 t0)
  ∧ get_book 2 (db r.2) = Some (mkBook 2 emile "Zola" 1 (5 # 1) t1 t1)
  ∧ ¬ natural_key_unique (view (db r.2)).
Proof.
  intros emile c inp r. split_and!; [reflexivity..|].
  intros H.
  specialize (H 1 2 (mkRow emile "Zola" 4 (12 # 1) t0 t0)
                (mkRow emile "Zola" 1 (5 # 1) t1 t1)
                eq_refl eq_refl eq_refl eq_refl).
  discriminate H.
Qed.

(** C5 (as amended): the natural key is an invariant of the operations of
    the manager on ASCII text.  From a store whose titles and authors are
    ASCII and where the natural key is unique, whatever the operator does
    in the add form, the delete form and update sessions (field updates and
    identifier changes alike), in any number and order, typing titles and
    authors in ASCII, the store that results satisfies it again, provided
    no DELETE of an identifier change is refused by the engine. *)
Theorem natural_key_invariant fl cmds w :
  Forall deletes_go_through cmds →
  Forall ascii_command cmds →
  ascii_table (view (db w)) →
  natural_key_unique (view (db w)) →
  natural_key_unique (view (db (run fl cmds w).2)).
Proof. intros Hd Hc Ha Hu. by apply run_keeps_natural_key. Qed.

Lemma natural_key_invariant_witness :
  let add := CmdAdd t1 [mkInputs (Typed 3) "emma" "JANE AUSTEN" (Typed 1)
                          (Typed (5 # 1));
                        mkInputs (Typed 3) "Persuasion" "Jane Austen"
                          (Typed 1) (Typed (5 # 1))] in
  let edit := CmdUpdate [Typed 2]
                [mkStep ChAll
                   (mkInputs (Typed 9) "Emma" "Jane Austen" TypedX TypedX)
                   t1 no_faults] in
  natural_key_unique
    (view (db (run no_faults [add; edit; CmdDelete [(Typed 1, true)]]
                 (start store_novels)).2)).
Proof.
  intros add edit.
  apply (natural_key_invariant no_faults
           [add; edit; CmdDelete [(Typed 1, true)]] (start store_novels)).
  - repeat constructor.
  - repeat constructor.
  - apply ascii_tableb_spec. vm_compute. reflexivity.
  - apply natural_key_uniqueb_spec. vm_compute. reflexivity.
Defined.

(** The claim as first stated fails: the primitives of the store check
    nothing.  An insert, and a field update, each take a table with a
    unique natural key to one where two records share it. *)
Lemma store_primitives_break_natural_key :
  natural_key_unique (view store_novels)
  ∧ ¬ natural_key_unique
        (view (BookDatabase.add_book
                 (mkData 3 "EMMA" "jane austen" 1 (5 # 1)) t1 false
                 store_novels).2)
  ∧ ¬ natural_key_unique
        (view (BookDatabase.update_book 2
                 (mkUpdates None (Some "emma") (Some "jane austen") None None)
                 t1 false store_novels).2).
Proof.
  split; [apply natural_key_uniqueb_spec; vm_compute; reflexivity|].
  split.
  - intros H.
    specialize (H 1 3 (mkRow "Emma" "Jane Austen" 4 (12 # 1) t0 t0)
                  (mkRow "EMMA" "jane austen" 1 (5 # 1) t1 t1)
                  eq_refl eq_refl eq_refl eq_refl).
    discriminate H.
  - intros H.
    specialize (H 1 2 (mkRow "Emma" "Jane Austen" 4 (12 # 1) t0 t0)
                  (mkRow "emma" "jane austen" 7 (8 # 1) t0 t1)
                  eq_refl eq_refl eq_refl eq_refl).
    discriminate H.
Qed.

(** With the DELETE of an identifier change refused, the session itself
    leaves two records with one natural key. *)
Lemma refused_delete_breaks_natural_key :
  let r := BookManager.update_book [Typed 3001]
             [mkStep ChId (mkInputs (Typed 3002) "x" "x" TypedX TypedX) t1
                (mkFaults false false true)] (start store_3001) in
  natural_key_unique (view store_3001)
  ∧ ¬ natural_key_unique (view (db r.2)).
Proof.
  split; [apply natural_key_uniqueb_spec; vm_compute; reflexivity|].
  intros H.
  specialize (H 3001 3002 (mkRow "A" "B" 5 (10 # 1) t0 t0)
                (mkRow "A" "B" 5 (10 # 1) t1 t1)
                eq_refl eq_refl eq_refl eq_refl).
  discriminate H.
Qed.

End natural_key_claims.

(** * Further properties of the store *)

Section store_more.
Import BookDatabase.
Implicit Types (c : Conn) (r : Row) (u : Updates) (t : gmap Z Row).



Lemma add_book_untouched data now fault c i r :
  view c !! i = Some r →
  view (add_book data now fault c).2 !! i = Some r.
Proof.
  intros Hr. rewrite add_book_view, add_book_result.
  destruct fault; simpl; [done|]. case_bool_decide as Hfree; [|done].
  rewrite lookup_insert_ne; [done|]. intros E. congruence.
Qed.

(** X2: [add_book] never overwrites: a record that is in the table is still
    there, unchanged, after any call, and a call for its id answers
    [False]. *)
Theorem add_book_keeps_existing data now fault c i r :
  view c !! i = Some r →
  view (add_book data now fault c).2 !! i = Some r
  ∧ (d_id data = i → (add_book data now fault c).1 = false).
Proof.
  intros Hr. split.
  - rewrite add_book_view, add_book_result.
    destruct fault; simpl; [done|]. case_bool_decide as Hfree; [|done].
    rewrite lookup_insert_ne; [done|]. intros E. congruence.
  - intros E. rewrite add_book_result, bool_decide_eq_false_2 by congruence.
    by destruct fault.
Qed.

Lemma add_book_keeps_existing_witness :
  let data := mkData 3001 "Emma" "Jane Austen" 3 (5 # 1) in
  view (add_book data t1 false store_3001).2 !! 3001 =
    Some (mkRow "A" "B" 5 (10 # 1) t0 t0)
  ∧ (3001 = 3001 → (add_book data t1 false store_3001).1 = false).
Proof.
  intros data.
  apply (add_book_keeps_existing data t1 false store_3001 3001
           (mkRow "A" "B" 5 (10 # 1) t0 t0)).
  reflexivity.
Defined.

(** X3: [delete_book] touches one id only: whether the DELETE goes through or
    is refused, every other id reads as before. *)
Theorem delete_book_other_ids book_id fault c j :
  j ≠ book_id →
  get_book j (delete_book book_id fault c).2 = get_book j c.
Proof.
  intros Hj. unfold get_book, delete_book. destruct fault; simpl.
  - by rewrite view_implicit_begin.
  - rewrite view_commit, view_write, view_implicit_begin.
    by rewrite lookup_delete_ne.
Qed.

Lemma delete_book_other_ids_witness :
  get_book 2 (delete_book 1 false store_novels).2 = get_book 2 store_novels.
Proof. apply (delete_book_other_ids 1 false store_novels 2). lia. Defined.

(** X4: [update_book] for an id that is not in the table answers [False] and
    leaves the table as it is, whatever the fields given. *)
Theorem update_book_absent book_id u now fault c :
  view c !! book_id = None →
  (update_book book_id u now fault c).1 = false
  ∧ view (update_book book_id u now fault c).2 = view c.
Proof.
  intros Habs.
  assert ((update_book book_id u now fault c).1 = false) as Hr.
  { unfold update_book. destruct (is_empty u); [done|].
    destruct fault; [done|]. simpl. by rewrite view_implicit_begin, Habs. }
  split; [done|]. by rewrite update_book_view, Hr.
Qed.

Lemma update_book_absent_witness :
  let u := set_quantity 1 no_updates in
  (update_book 9 u t1 false store_novels).1 = false
  ∧ view (update_book 9 u t1 false store_novels).2 = view store_novels.
Proof.
  intros u. apply (update_book_absent 9 u t1 false store_novels). reflexivity.
Defined.

(** X5: A field update (no key [id]) changes no record but the one named. *)
Theorem update_book_other_ids book_id u now fault c j :
  u_id u = None → j ≠ book_id →
  get_book j (update_book book_id u now fault c).2 = get_book j c.
Proof.
  intros Hid Hj. unfold get_book. rewrite update_book_view.
  destruct (update_book book_id u now fault c).1; [|done].
  destruct (view c !! book_id); [|done]. rewrite Hid. simpl.
  rewrite lookup_insert_ne by done. by rewrite lookup_delete_ne.
Qed.

Lemma update_book_other_ids_witness :
  let u := set_title "Persuasion" no_updates in
  get_book 1 (update_book 2 u t1 false store_novels).2
  = get_book 1 store_novels.
Proof.
  intros u.
  apply (update_book_other_ids 2 u t1 false store_novels 1); [reflexivity|lia].
Defined.

(** X6: [update_book] neither creates nor removes a record: the table has as
    many rows after as before, also when the key [id] is among the fields
    (the row moves to a free id, or the statement fails on a taken one). *)
Theorem update_book_size book_id u now fault c :
  size (view (update_book book_id u now fault c).2) = size (view c).
Proof.
  rewrite update_book_view.
  destruct (update_book book_id u now fault c).1 eqn:Hok; [|done].
  destruct (view c !! book_id) as [r|] eqn:Hr; [|done].
  assert (delete book_id (view c) !! default book_id (u_id u) = None) as Hn.
  { revert Hok. unfold update_book. destruct (is_empty u); [done|].
    destruct fault; [done|]. simpl. rewrite view_implicit_begin, Hr.
    case_bool_decide as Hclash; [done|]. intros _.
    set (n := default book_id (u_id u)) in *.
    destruct (decide (n = book_id)) as [->|Hne].
    - apply lookup_delete_eq.
    - rewrite lookup_delete_ne by done.
      apply eq_None_not_Some. intros Hs. by apply Hclash. }
  rewrite map_size_insert_None by done.
  rewrite map_size_delete, Hr. simpl.
  assert (size (view c) ≠ 0)%nat; [|lia].
  intros Hz%map_size_empty_inv. by rewrite Hz, lookup_empty in Hr.
Qed.

End store_more.

(** * Searching *)

Section like.

Lemma append_nil_right s : String.append s EmptyString = s.
Proof.
  induction s as [|a s IH]; [done|].
  change (String a (String.append s EmptyString) = String a s).
  by rewrite IH.
Qed.

Lemma append_cons a s1 s2 :
  String.append (String a s1) s2 = String a (String.append s1 s2).
Proof. reflexivity. Qed.

Lemma append_empty_inv s1 s2 :
  String.append s1 s2 = EmptyString → s1 = EmptyString ∧ s2 = EmptyString.
Proof. destruct s1; [done|]. rewrite append_cons. discriminate. Qed.

Lemma like_percent_nil p :
  Text.like (String "%" p) EmptyString = Text.like p EmptyString || false.
Proof. reflexivity. Qed.

Lemma like_percent_cons p a s :
  Text.like (String "%" p) (String a s) =
  Text.like p (String a s) || Text.like (String "%" p) s.
Proof. reflexivity. Qed.

(** [%] stands for any prefix of the text. *)
Lemma like_percent p s :
  Text.like (String "%" p) s = true ↔
  ∃ s1 s2, s = String.append s1 s2 ∧ Text.like p s2 = true.
Proof.
  induction s as [|a s IH].
  - rewrite like_percent_nil, orb_false_r. split.
    + intros H. by exists EmptyString, EmptyString.
    + intros (s1 & s2 & Hs & H). symmetry in Hs.
      apply append_empty_inv in Hs as [_ ->]. done.
  - rewrite like_percent_cons, orb_true_iff, IH. split.
    + intros [H|(s1 & s2 & -> & H)].
      * by exists EmptyString, (String a s).
      * by exists (String a s1), s2.
    + intros (s1 & s2 & Hs & H). destruct s1 as [|b s1].
      * left. change (String a s = s2) in Hs. by subst s2.
      * right. rewrite append_cons in Hs. injection Hs as -> ->. eauto.
Qed.



Lemma like_percent_only s : Text.like (String "%" EmptyString) s = true.
Proof.
  apply like_percent. exists s, EmptyString.
  by rewrite append_nil_right.
Qed.


End like.

Section searching.
Import BookDatabase.
Implicit Types (c : Conn) (r : Row) (b : Book) (f : Filters).

Lemma row_to_dict_pair_inj (x y : Z * Row) :
  uncurry _row_to_dict x = uncurry _row_to_dict y → x = y.
Proof.
  destruct x as [i r], y as [j r']. simpl.
  by intros [-> ->]%row_to_dict_inj.
Qed.

Lemma get_all_books_facts c :
  NoDup (get_all_books c)
  ∧ length (get_all_books c) = size (view c)
  ∧ ∀ b, b ∈ get_all_books c ↔ get_book (bk_id b) c = Some b.
Proof.
  unfold get_all_books. split; [|split].
  - apply NoDup_fmap_2_strong; [|apply NoDup_map_to_list].
    intros x y _ _. apply row_to_dict_pair_inj.
  - by rewrite length_fmap, length_map_to_list.
  - intros b. rewrite list_elem_of_fmap, get_book_Some. split.
    + intros ([i r] & -> & Hin%elem_of_map_to_list). simpl. eauto.
    + intros (r & Hr & Hb). exists (bk_id b, r).
      split; [done|]. by apply elem_of_map_to_list.
Qed.

(** X7: The inventory and the lookup agree: [get_all_books] lists a dictionary
    exactly when [get_book] returns it for its id, lists none twice, and
    lists as many as the table has rows. *)
Theorem get_all_books_spec c :
  NoDup (get_all_books c)
  ∧ length (get_all_books c) = size (view c)
  ∧ ∀ b, b ∈ get_all_books c ↔ get_book (bk_id b) c = Some b.
Proof. apply get_all_books_facts. Qed.

Lemma search_books_facts f c :
  NoDup (search_books f c)
  ∧ ∀ b, b ∈ search_books f c ↔
         get_book (bk_id b) c = Some b ∧ matches f b = true.
Proof.
  destruct (get_all_books_facts c) as (Hnd & _ & Hin). unfold search_books.
  split; [by apply NoDup_filter|].
  intros b. rewrite list_elem_of_filter, Hin. tauto.
Qed.

(** [search_books] returns the stored books that pass every filter given,
    each of them once. *)
Lemma search_books_spec f c :
  NoDup (search_books f c)
  ∧ ∀ b, b ∈ search_books f c ↔
         get_book (bk_id b) c = Some b ∧ matches f b = true.
Proof. apply search_books_facts. Qed.

Lemma matches_by_id i b : matches (by_id i) b = bool_decide (bk_id b = i).
Proof. unfold matches. simpl. by rewrite !andb_true_r. Qed.

Lemma matches_by_title v b :
  matches (by_title v) b =
  Text.like (String.append "%" (String.append v "%")) (bk_title b).
Proof. unfold matches. simpl. by rewrite !andb_true_r. Qed.

Lemma matches_by_author v b :
  matches (by_author v) b =
  Text.like (String.append "%" (String.append v "%")) (bk_author b).
Proof. unfold matches. simpl. by rewrite !andb_true_r. Qed.

Lemma matches_by_low_stock n b :
  matches (by_low_stock n) b = bool_decide (bk_quantity b < n).
Proof. unfold matches. simpl. done. Qed.

Lemma filter_none {A} (P : A → Prop) `{∀ x, Decision (P x)} (l : list A) :
  (∀ x, x ∈ l → ¬ P x) → filter P l = [].
Proof.
  induction l as [|x l IH]; intros Hl; [done|].
  rewrite filter_cons_False by (apply Hl; left).
  apply IH. intros y Hy. apply Hl. by right.
Qed.

Lemma filter_the_one {A} (P : A → Prop) `{∀ x, Decision (P x)}
    (l : list A) (a : A) :
  NoDup l → a ∈ l → (∀ x, x ∈ l → P x ↔ x = a) → filter P l = [a].
Proof.
  induction l as [|x l IH]; intros Hnd Ha HP; [by apply elem_of_nil in Ha|].
  apply NoDup_cons in Hnd as [Hx Hnd].
  destruct (decide (P x)) as [Px|Px].
  - rewrite filter_cons_True by done.
    apply HP in Px as ->; [|left]. f_equal. apply filter_none.
    intros y Hy Py. apply HP in Py; [|by right]. by subst y.
  - rewrite filter_cons_False by done.
    apply elem_of_cons in Ha as [->|Ha]; [exfalso; apply Px, HP; [left|done]|].
    apply IH; [done..|]. intros y Hy. apply HP. by right.
Qed.

Lemma search_by_id_facts i c :
  search_books (by_id i) c =
  match get_book i c with
  | Some b => [b]
  | None => []
  end.
Proof.
  destruct (get_all_books_facts c) as (Hnd & _ & Hin). unfold search_books.
  destruct (get_book i c) as [b|] eqn:Hb.
  - apply filter_the_one; [done|..].
    + apply Hin. by rewrite (get_book_id _ _ _ Hb).
    + intros x Hx. rewrite matches_by_id, bool_decide_eq_true. split.
      * intros Hi. apply Hin in Hx. rewrite Hi in Hx. congruence.
      * intros ->. by eapply get_book_id.
  - apply filter_none. intros x Hx.
    rewrite matches_by_id, bool_decide_eq_true. intros Hi.
    apply Hin in Hx. rewrite Hi in Hx. congruence.
Qed.

(** X8: A search by id finds what [get_book] finds: the one book with this id
    when there is one, and nothing otherwise. *)
Theorem search_books_by_id i c :
  search_books (by_id i) c =
  match get_book i c with
  | Some b => [b]
  | None => []
  end.
Proof. apply search_by_id_facts. Qed.



(** X10: The text of a title or author filter is put into the pattern as it is:
    an empty text, or the wildcard [%], matches every book, so the search
    lists the whole inventory. *)
Theorem search_books_unescaped c :
  search_books (by_title EmptyString) c = get_all_books c
  ∧ search_books (by_title "%") c = get_all_books c
  ∧ search_books (by_author EmptyString) c = get_all_books c
  ∧ search_books (by_author "%") c = get_all_books c.
Proof.
  assert (∀ s, Text.like "%%" s = true) as H2.
  { intros s. apply like_percent. exists EmptyString, s.
    split; [done|]. apply like_percent_only. }
  assert (∀ s, Text.like "%%%" s = true) as H3.
  { intros s. apply like_percent. exists EmptyString, s. by split. }
  unfold search_books.
  repeat split; apply filter_all; intros b;
    rewrite ?matches_by_title, ?matches_by_author; (apply H2 || apply H3).
Qed.

(** The filter [min_stock] is a strict upper bound: a search with it finds
    the stored books whose quantity is below the number given, and none
    whose quantity equals it. *)
Lemma search_books_low_stock n c b :
  b ∈ search_books (by_low_stock n) c ↔
  get_book (bk_id b) c = Some b ∧ bk_quantity b < n.
Proof.
  destruct (search_books_facts (by_low_stock n) c) as [_ ->].
  by rewrite matches_by_low_stock, bool_decide_eq_true.
Qed.

End searching.

(** * The natural-key query and the start of the program *)

Section query_and_setup.
Import BookDatabase.
Implicit Types (c : Conn) (r : Row) (t : gmap Z Row).

(** X11: [is_duplicate_title_author] answers [True] exactly when some row,
    not the row left out, has a title and an author that SQLite's [lower]
    (which folds the letters A to Z only) makes equal to what Python's
    [lower] makes of the title and the author asked for.  An [exclude_id]
    of 0 leaves no row out, like [None]. *)
Theorem is_duplicate_title_author_spec title' author' exclude_id c :
  is_duplicate_title_author title' author' exclude_id c = true ↔
  ∃ i r, view c !! i = Some r
         ∧ Text.lower (title r) = Text.py_lower title'
         ∧ Text.lower (author r) = Text.py_lower author'
         ∧ ∀ e, exclude_id = Some e → e ≠ 0 → i ≠ e.
Proof.
  rewrite is_duplicate_spec. split.
  - intros (i & r & Hr & [Ht Ha]%same_key_spec & He).
    exists i, r. repeat split; try done.
    intros e -> He0 ->. unfold excludes in He.
    rewrite bool_decide_eq_false_2 in He by done.
    by rewrite bool_decide_eq_true_2 in He.
  - intros (i & r & Hr & Ht & Ha & He). exists i, r.
    split; [done|]. split; [by apply same_key_spec|].
    unfold excludes. destruct exclude_id as [e|]; [|done].
    case_bool_decide; [done|]. apply bool_decide_eq_false_2. by apply He.
Qed.

Lemma foldl_insert_or_ignore now (l : list BookData) t i :
  foldl (insert_or_ignore now) t l !! i =
  match t !! i with
  | Some r => Some r
  | None =>
      (λ kb : nat * BookData,
         mkRow (d_title kb.2) (d_author kb.2) (d_quantity kb.2)
               (d_price kb.2) now now)
        <$> list_find (λ b, d_id b = i) l
  end.
Proof.
  revert t. induction l as [|b l IH]; intros t; simpl.
  - by destruct (t !! i).
  - rewrite IH. unfold insert_or_ignore. case_decide as Hid.
    + subst i. destruct (t !! d_id b) as [r|] eqn:Hb; [by rewrite Hb|].
      by rewrite lookup_insert_eq.
    + destruct (t !! d_id b) as [r|] eqn:Hb.
      * destruct (t !! i); [done|].
        by destruct (list_find (λ b0, d_id b0 = i) l) as [[??]|].
      * rewrite lookup_insert_ne by done. destruct (t !! i); [done|].
        by destruct (list_find (λ b0, d_id b0 = i) l) as [[??]|].
Qed.

Lemma setup_facts now c :
  (∀ i r, view c !! i = Some r → view (_setup now c) !! i = Some r)
  ∧ (∀ b, b ∈ books → is_Some (get_book (d_id b) (_setup now c)))
  ∧ (∀ i, view c !! i = None → i ∉ d_id <$> books →
          view (_setup now c) !! i = None).
Proof.
  assert (∀ i, view (_setup now c) !! i =
               foldl (insert_or_ignore now) (view c) books !! i) as Hv.
  { intros i. unfold _setup. by rewrite view_commit, view_write,
      view_implicit_begin. }
  split; [|split].
  - intros i r Hr. by rewrite Hv, foldl_insert_or_ignore, Hr.
  - intros b Hb. unfold get_book. rewrite Hv, foldl_insert_or_ignore.
    destruct (view c !! d_id b); [by eexists|].
    repeat (apply elem_of_cons in Hb as [->|Hb]; [by eexists|]).
    by apply elem_of_nil in Hb.
  - intros i Hi Hn. rewrite Hv, foldl_insert_or_ignore, Hi.
    destruct (list_find (λ b, d_id b = i) books) as [[k b]|] eqn:E; [|done].
    apply list_find_Some in E as (Hk & <- & _). exfalso. apply Hn.
    apply list_elem_of_fmap. exists b. split; [done|].
    by eapply list_elem_of_lookup_2.
Qed.

Lemma setup_restores now c b :
  b ∈ books → view c !! d_id b = None →
  view (_setup now c) !! d_id b =
  Some (mkRow (d_title b) (d_author b) (d_quantity b) (d_price b) now now).
Proof.
  intros Hb Hnone. unfold _setup.
  rewrite view_commit, view_write, view_implicit_begin.
  rewrite foldl_insert_or_ignore, Hnone.
  repeat (apply elem_of_cons in Hb as [->|Hb]; [reflexivity|]).
  by apply elem_of_nil in Hb.
Qed.

(** X12: Starting the program again: [_setup] keeps every row it finds as it is,
    so edits to a sample book survive; it puts back each of the five sample
    books whose id is free, with the title, author, quantity and price of
    the sample and both dates set to the time of the start, so a deleted
    sample book returns; and it adds no other id. *)
Theorem setup_restart now c :
  (∀ i r, view c !! i = Some r → view (_setup now c) !! i = Some r)
  ∧ (∀ b, b ∈ books → view c !! d_id b = None →
          get_book (d_id b) (_setup now c) =
          Some (mkBook (d_id b) (d_title b) (d_author b) (d_quantity b)
                  (d_price b) now now))
  ∧ (∀ i, view c !! i = None → i ∉ d_id <$> books →
          view (_setup now c) !! i = None).
Proof.
  destruct (setup_facts now c) as (Hkeep & _ & Hnone).
  split_and!; [done| |done].
  intros b Hb Hfree. unfold get_book.
  by rewrite (setup_restores now c b Hb Hfree).
Qed.

(** X13: Running [_setup] a second time changes nothing. *)
Theorem setup_twice now now' c :
  view (_setup now' (_setup now c)) = view (_setup now c).
Proof.
  apply map_eq. intros i.
  destruct (setup_facts now' (_setup now c)) as (Hkeep & _ & Hnone).
  destruct (view (_setup now c) !! i) as [r|] eqn:Hi; [by apply Hkeep|].
  apply Hnone; [done|]. intros Hin.
  apply list_elem_of_fmap in Hin as (b & -> & Hb).
  destruct (setup_facts now c) as (_ & Hall & _).
  destruct (Hall b Hb) as [x Hx]. apply get_book_Some in Hx as (r & Hr & _).
  congruence.
Qed.

End query_and_setup.

(** * Validators *)

Section validators.
Import BookDatabase BookManager.
Implicit Types (c : Conn) (w : World) (u : Updates) (book : Book).

Lemma lstrip_cases s :
  Text.lstrip s = EmptyString
  ∨ ∃ a s', Text.lstrip s = String a s' ∧ Text.is_space a = false.
Proof.
  induction s as [|a s IH]; [by left|]. simpl.
  destruct (Text.is_space a) eqn:Ha; [done|]. right. eauto.
Qed.

Lemma lstrip_blank s : Text.lstrip s = EmptyString ↔ blank s = true.
Proof.
  induction s as [|a s IH]; [done|]. simpl.
  destruct (Text.is_space a); simpl; [done|]. split; discriminate.
Qed.

Lemma rstrip_cons a s :
  Text.is_space a = false →
  Text.rstrip (String a s) = String a (Text.rstrip s).
Proof. intros Ha. simpl. rewrite Ha. by destruct (Text.rstrip s). Qed.

Lemma rstrip_unfold a s :
  Text.rstrip (String a s) =
  match Text.rstrip s with
  | EmptyString =>
      if Text.is_space a then EmptyString else String a EmptyString
  | r => String a r
  end.
Proof. reflexivity. Qed.

Lemma rstrip_idempotent s : Text.rstrip (Text.rstrip s) = Text.rstrip s.
Proof.
  induction s as [|a s IH]; [done|]. rewrite (rstrip_unfold a s).
  destruct (Text.rstrip s) as [|b r] eqn:E.
  - destruct (Text.is_space a) eqn:Ha; [done|]. simpl. by rewrite Ha.
  - by rewrite rstrip_unfold, IH.
Qed.

Lemma lstrip_cons a s :
  Text.is_space a = false → Text.lstrip (String a s) = String a s.
Proof. intros Ha. simpl. by rewrite Ha. Qed.

Lemma strip_idempotent s : Text.strip (Text.strip s) = Text.strip s.
Proof.
  unfold Text.strip. destruct (lstrip_cases s) as [->|(a & s' & -> & Ha)].
  - done.
  - rewrite (rstrip_cons a s') by done. rewrite lstrip_cons by done.
    rewrite rstrip_cons by done. by rewrite rstrip_idempotent.
Qed.

Lemma strip_empty_blank s : Text.strip s = EmptyString ↔ blank s = true.
Proof.
  rewrite <- lstrip_blank. unfold Text.strip.
  destruct (lstrip_cases s) as [->|(a & s' & -> & Ha)]; [done|].
  rewrite rstrip_cons by done. split; discriminate.
Qed.

Lemma validate_text_blank text :
  _validate_text text = (if blank text then Some Empty else None).
Proof.
  unfold _validate_text. destruct (blank text) eqn:Hb.
  - rewrite bool_decide_eq_true_2; [done|]. by apply strip_empty_blank.
  - rewrite bool_decide_eq_false_2; [done|].
    intros H%strip_empty_blank. congruence.
Qed.

(** X14: [_validate_text] refuses the texts made of white space only, the empty
    text among them, and no other.  White space is what [str.strip]
    removes: the ASCII blanks, the separators 28 to 31, the next-line
    character (133) and the no-break space (160). *)
Theorem validate_text_spec text :
  _validate_text text = (if blank text then Some Empty else None).
Proof. apply validate_text_blank. Qed.

Lemma strip_clean s : Text.strip s ≠ EmptyString → clean (Text.strip s).
Proof. intros H. split; [apply strip_idempotent|done]. Qed.

Lemma validate_id_facts book_id exclude_id c :
  _validate_id book_id exclude_id c = None ↔
  0 < book_id ∧ (view c !! book_id = None ∨ exclude_id = Some book_id).
Proof.
  unfold _validate_id. case_bool_decide as Hpos.
  { split; [done|]. intros [? _]. lia. }
  destruct (get_book book_id c) as [b|] eqn:Hb.
  - pose proof (get_book_id _ _ _ Hb) as Hid.
    apply get_book_Some in Hb as (r & Hr & _).
    destruct exclude_id as [e|].
    + rewrite Hid. case_bool_decide as He.
      * split; [done|]. intros [_ [?|[= ->]]]; congruence.
      * split; [|done]. intros _. split; [lia|]. right. f_equal.
        destruct (decide (book_id = e)); [done|]. by destruct He.
    + split; [done|]. intros [_ [?|?]]; congruence.
  - apply get_book_None in Hb. split; [|done]. intros _. split; [lia|by left].
Qed.


End validators.

(** * The rows the manager writes are valid *)

Section validity.
Import BookDatabase BookManager.
Implicit Types (c : Conn) (w : World) (u : Updates) (book : Book).
Implicit Types (t : gmap Z Row) (r : Row).

Lemma valid_table_insert t i r :
  valid_table t → valid_row i r → valid_table (<[i := r]> t).
Proof.
  intros Ht Hr j r' [[<- <-]|[_ H]]%lookup_insert_Some; [done|by apply Ht].
Qed.

Lemma valid_table_delete t i : valid_table t → valid_table (delete i t).
Proof. intros Ht j r' [_ H]%lookup_delete_Some. by apply Ht. Qed.

Lemma validate_text_clean text :
  _validate_text text = None → clean (Text.strip text).
Proof.
  unfold _validate_text. case_bool_decide; [done|]. intros _.
  by apply strip_clean.
Qed.

Lemma staged_valid_no_updates : staged_valid no_updates.
Proof. unfold staged_valid. split_and!; intros ? [=]. Qed.

Lemma handle_id_valid book c a :
  keeps c staged_valid (λ u, _handle_id_update book u a).
Proof.
  intros u w Hw Hu. unfold _handle_id_update.
  destruct a as [| |n]; run_m; [done..|].
  case_bool_decide; run_m; [done|]. rewrite Hw.
  destruct (_validate_id n (Some (bk_id book)) c) eqn:Hv; run_m; [done|].
  split; [done|]. destruct Hu as (_ & Ht & Ha & Hq).
  split; [|done]. simpl. intros ? [= <-].
  by apply validate_id_facts in Hv as [? _].
Qed.

Lemma handle_title_valid book c x :
  keeps c staged_valid (λ u, _handle_title_update book u x).
Proof.
  intros u w Hw Hu. unfold _handle_title_update.
  destruct (Text.is_x x); run_m; [done|].
  case_bool_decide; run_m; [done|].
  destruct (_validate_text x) eqn:Hv; run_m; [done|]. rewrite Hw.
  destruct (_validate_duplicate _ _ _ c); run_m; [done|].
  split; [done|]. destruct Hu as (Hi & _ & Ha & Hq).
  unfold staged_valid. simpl. split_and!; try done. intros ? [= <-].
  by apply validate_text_clean.
Qed.

Lemma handle_author_valid book c x :
  keeps c staged_valid (λ u, _handle_author_update book u x).
Proof.
  intros u w Hw Hu. unfold _handle_author_update.
  destruct (Text.is_x x); run_m; [done|].
  case_bool_decide; run_m; [done|].
  destruct (_validate_text x) eqn:Hv; run_m; [done|]. rewrite Hw.
  destruct (_validate_duplicate _ _ _ c); run_m; [done|].
  split; [done|]. destruct Hu as (Hi & Ht & _ & Hq).
  unfold staged_valid. simpl. split_and!; try done. intros ? [= <-].
  by apply validate_text_clean.
Qed.

Lemma handle_quantity_valid book c a :
  keeps c staged_valid (λ u, _handle_quantity_update book u a).
Proof.
  intros u w Hw Hu. unfold _handle_quantity_update.
  destruct a as [| |n]; run_m; [done..|].
  case_bool_decide as Hn; run_m; [|done].
  case_bool_decide; run_m; [done|].
  destruct (_validate_quantity n); run_m; [done|].
  split; [done|]. destruct Hu as (Hi & Ht & Ha & _).
  unfold staged_valid. simpl. split_and!; try done. by intros ? [= <-].
Qed.

Lemma handle_price_valid book c a :
  keeps c staged_valid (λ u, _handle_price_update book u a).
Proof.
  intros u w Hw Hu. unfold _handle_price_update.
  destruct a as [| |p]; run_m; [done..|].
  destruct (Qeq_bool p (bk_price book)); run_m; [done|].
  destruct (_validate_price p) eqn:Hv; run_m; done.
Qed.

Lemma process_update_choice_valid ch book inp w u :
  (_process_update_choice ch book inp w).1 = Some u → staged_valid u.
Proof.
  apply process_update_choice_keeps.
  - apply staged_valid_no_updates.
  - apply handle_id_valid.
  - apply handle_title_valid.
  - apply handle_author_valid.
  - apply handle_quantity_valid.
  - apply handle_price_valid.
Qed.

Lemma staged_row_valid i r u now :
  valid_row i r → staged_valid u →
  valid_row i (set_fields u now r)
  ∧ ∀ n, u_id u = Some n → valid_row n (replacement u now r).
Proof.
  intros (Hi & Ht & Ha & Hq) (Si & St & Sa & Sq).
  assert (clean (default (title r) (u_title u))) as Ht'
    by (destruct (u_title u); simpl; auto).
  assert (clean (default (author r) (u_author u))) as Ha'
    by (destruct (u_author u); simpl; auto).
  assert (0 ≤ default (quantity r) (u_quantity u)) as Hq'
    by (destruct (u_quantity u); simpl; auto).
  split; [done|]. intros n Hn. split; [by apply Si|done].
Qed.

(** Whatever the engine refuses, [_apply_updates] leaves a table of valid
    rows when it was given one and the staged values are valid. *)
Lemma apply_updates_keeps_valid fl now book_id u c :
  valid_table (view c) → staged_valid u →
  valid_table (apply_updates_outcome fl now book_id u c).2.
Proof.
  intros Hv Hu. unfold apply_updates_outcome.
  destruct (is_empty u); [done|].
  destruct (u_id u) as [n|] eqn:En.
  - destruct (view c !! book_id) as [r|] eqn:Hr; [|done].
    destruct (pending c); [done|]. destruct (insert_fails fl); [done|].
    destruct (view c !! n); [done|].
    destruct (staged_row_valid book_id r u now (Hv _ _ Hr) Hu) as [_ Hn].
    destruct (delete_fails fl); simpl.
    + apply valid_table_insert; auto.
    + apply valid_table_delete, valid_table_insert; auto.
  - destruct (update_fails fl); [done|].
    destruct (view c !! book_id) as [r|] eqn:Hr; [|done]. simpl.
    apply valid_table_insert; [done|].
    by destruct (staged_row_valid book_id r u now (Hv _ _ Hr) Hu) as [? _].
Qed.

Lemma update_loop_keeps_valid steps book w :
  valid_table (view (db w)) →
  valid_table (view (db (update_loop steps book w).2)).
Proof.
  revert book w. induction steps as [|st steps IH]; intros book w Hv; [done|].
  simpl. run_m.
  set (w1 := mkWorld (db w) (console w ++ [Details book])).
  destruct (process_update_choice_staged (choice st) book (inputs st) w1)
    as (Hdb & _ & _).
  pose proof (process_update_choice_valid (choice st) book (inputs st) w1)
    as Hval.
  change (db w1) with (db w) in *.
  destruct (_process_update_choice (choice st) book (inputs st) w1)
    as [[u|] w2]; simpl in *.
  - destruct (is_empty u).
    + apply IH. simpl. by rewrite Hdb.
    + destruct (apply_updates_refines (step_faults st) (step_time st)
                  (bk_id book) u w2) as [_ Hview].
      set (w3 := (_apply_updates _ _ _ u w2).2) in *.
      assert (valid_table (view (db w3))) as Hv3.
      { rewrite Hview, Hdb. apply apply_updates_keeps_valid; auto. }
      destruct (get_book _ (db w3)); simpl; [by apply IH|done].
  - apply IH. by rewrite Hdb.
Qed.

Lemma add_book_pass_keeps_valid now fault inp w :
  valid_table (view (db w)) →
  valid_table (view (db (add_book_pass now fault inp w).2)).
Proof.
  intros Hv. unfold add_book_pass.
  destruct (in_id inp) as [| |id_val]; run_m; [done..|].
  destruct (bool_decide (0 ≤ id_val)); run_m; [|done].
  destruct (_validate_id id_val None (db w)) eqn:Hid; run_m; [done|].
  destruct (Text.is_x (in_title inp)); run_m; [done|].
  destruct (_validate_text (in_title inp)) eqn:Ht; run_m; [done|].
  destruct (Text.is_x (in_author inp)); run_m; [done|].
  destruct (_validate_text (in_author inp)) eqn:Ha; run_m; [done|].
  destruct (_validate_duplicate _ _ None (db w)); run_m; [done|].
  destruct (in_quantity inp) as [| |qty]; run_m; [done..|].
  case_bool_decide as Hq; run_m; [|done].
  destruct (_validate_quantity qty); run_m; [done|].
  destruct (in_price inp) as [| |p]; run_m; [done..|].
  destruct (_validate_price p) eqn:Hp; run_m; [done|].
  match goal with
  | |- context [BookDatabase.add_book ?d now fault (db w)] =>
      pose proof (add_book_view d now fault (db w)) as Hview;
      destruct (BookDatabase.add_book d now fault (db w)) as [[] c']
  end; simpl in *; rewrite Hview; [|done].
  apply valid_table_insert; [done|].
  apply validate_id_facts in Hid as [Hpos _].
  repeat split; simpl; try done.
  - by apply validate_text_clean in Ht as [? _].
  - by apply validate_text_clean in Ht as [_ ?].
  - by apply validate_text_clean in Ha as [? _].
  - by apply validate_text_clean in Ha as [_ ?].
Qed.

Lemma add_book_keeps_valid now fault forms w :
  valid_table (view (db w)) →
  valid_table (view (db (BookManager.add_book now fault forms w).2)).
Proof.
  revert w. induction forms as [|inp rest IH]; intros w Hv; [done|].
  simpl. run_m.
  pose proof (add_book_pass_keeps_valid now fault inp w Hv) as H1.
  destruct (add_book_pass now fault inp w) as [[] w1]; simpl in *;
    [by apply IH|done].
Qed.

Lemma delete_book_keeps_valid fault script w :
  valid_table (view (db w)) →
  valid_table (view (db (BookManager.delete_book fault script w).2)).
Proof.
  revert w. induction script as [|[val confirm] rest IH]; intros w Hv; [done|].
  simpl. destruct val as [| |z]; run_m; [done|by apply (IH (mkWorld _ _))|].
  destruct (bool_decide (0 ≤ z)); run_m; [|by apply (IH (mkWorld _ _))].
  destruct (get_book z (db w)) as [b|]; run_m; [|by apply (IH (mkWorld _ _))].
  destruct confirm; run_m; [|done].
  destruct fault.
  - unfold BookDatabase.delete_book. simpl. by rewrite view_implicit_begin.
  - pose proof (delete_book_view z (db w)) as Hview.
    assert (valid_table (view (BookDatabase.delete_book z false (db w)).2))
      as Hv'.
    { rewrite Hview. by apply valid_table_delete. }
    destruct (BookDatabase.delete_book z false (db w)) as [[[]|e] c'];
      simpl in *; done.
Qed.

Lemma run_valid_facts fl cmds w :
  valid_table (view (db w)) →
  valid_table (view (db (run fl cmds w).2)).
Proof.
  revert w. induction cmds as [|cmd cmds IH]; intros w Hv; [done|].
  simpl. run_m.
  assert (valid_table (view (db (run_command fl cmd w).2))) as H1.
  { destruct cmd as [now forms|targets steps|script]; simpl.
    - run_m. by apply add_book_keeps_valid.
    - unfold BookManager.update_book. run_m.
      destruct (get_book_to_update_sync targets w) as [Hdb _].
      destruct (_get_book_to_update targets w) as [[b|] w1]; simpl in *.
      + apply update_loop_keeps_valid. by rewrite Hdb.
      + by rewrite Hdb.
    - by apply delete_book_keeps_valid. }
  destruct (run_command fl cmd w) as [[|e] w1]; simpl in *; [by apply IH|done].
Qed.

(** X16: The rules of the forms for the id, the title, the author and the
    quantity hold for everything the manager stores: from a table where
    every row has a positive id, a stripped, non-empty title and author,
    and a quantity that is not negative, any sequence of add, update and
    delete commands leads to such a table, whatever the engine refuses.
    (Nothing is said of the price.) *)
Theorem run_keeps_valid fl cmds w :
  valid_table (view (db w)) →
  valid_table (view (db (run fl cmds w).2)).
Proof. apply run_valid_facts. Qed.

Lemma valid_table_setup now : valid_table (view (_setup now (open_conn ∅))).
Proof.
  intros i r Hr.
  assert ((i, r) ∈ map_to_list (view (_setup now (open_conn ∅)))) as Hin
    by by apply elem_of_map_to_list.
  vm_compute in Hin.
  repeat (apply elem_of_cons in Hin as [[= -> ->]|Hin];
          [repeat split; vm_compute; congruence|]).
  by apply elem_of_nil in Hin.
Qed.

Lemma run_keeps_valid_witness :
  let cmds := [CmdAdd t1 [mkInputs (Typed 7) "  Emma " "Jane Austen"
                            (Typed 2) (Typed (5 # 1))];
               CmdUpdate [Typed 3001]
                 [mkStep ChAll
                    (mkInputs (Typed 8) " " "Boz" (Typed (-3))
                       (Typed (-1 # 1))) t1 no_faults]] in
  valid_table
    (view (db (run no_faults cmds (start (_setup t0 (open_conn ∅)))).2)).
Proof.
  intros cmds.
  apply (run_keeps_valid no_faults cmds (start (_setup t0 (open_conn ∅)))).
  apply valid_table_setup.
Defined.

(** X17: From a fresh database: after [_setup] and any sequence of commands
    of the manager in which titles and authors are typed in ASCII and no
    DELETE of an identifier change is refused, every row has a positive
    id, a stripped, non-empty title and author and a quantity that is not
    negative, and no two rows share a natural key. *)
Theorem fresh_database_invariants now fl cmds :
  Forall deletes_go_through cmds →
  Forall ascii_command cmds →
  let c := db (run fl cmds (start (_setup now (open_conn ∅)))).2 in
  valid_table (view c) ∧ natural_key_unique (view c).
Proof.
  intros Hcmds Hasc. split.
  - apply run_valid_facts, valid_table_setup.
  - apply run_keeps_natural_key;
      [done|done|apply setup_ascii|apply setup_natural_key].
Qed.

Lemma fresh_database_invariants_witness :
  let cmds := [CmdUpdate [Typed 3002]
                 [mkStep ChAll
                    (mkInputs (Typed 7) "a tale of two cities"
                       "CHARLES DICKENS" (Typed 0) (Typed (1 # 2))) t1
                    no_faults];
               CmdDelete [(Typed 3001, true)];
               CmdAdd t1 [mkInputs (Typed 3001) "Harry Potter"
                            "j.k. rowling" (Typed 1) (Typed (1 # 1))]] in
  let c := db (run no_faults cmds (start (_setup t0 (open_conn ∅)))).2 in
  valid_table (view c) ∧ natural_key_unique (view c).
Proof.
  intros cmds.
  apply (fresh_database_invariants t0 no_faults cmds).
  - repeat constructor.
  - repeat constructor.
Defined.

End validity.

(** * Further properties of the manager *)

Section manager_more.
Import BookDatabase BookManager.
Implicit Types (c : Conn) (w : World) (u : Updates) (book : Book).
Implicit Types (t : gmap Z Row) (r : Row).

(** What [_apply_updates] leaves under the ids it does not work on. *)
Lemma apply_updates_other fl now book u c j r :
  staged_ok book c u → j ≠ bk_id book → view c !! j = Some r →
  (apply_updates_outcome fl now (bk_id book) u c).2 !! j = Some r
  ∧ j ≠ default (bk_id book) (u_id u).
Proof.
  intros [Hi _] Hj Hr.
  assert (j ≠ default (bk_id book) (u_id u)) as Hn.
  { destruct (u_id u) as [n|] eqn:En; simpl; [|done].
    destruct (Hi n eq_refl) as [_ Hfree]. congruence. }
  split; [|done]. unfold apply_updates_outcome.
  destruct (is_empty u); [done|].
  destruct (u_id u) as [n|]; simpl in *.
  - destruct (view c !! bk_id book); [|done].
    destruct (pending c); [done|]. destruct (insert_fails fl); [done|].
    destruct (view c !! n); [done|].
    destruct (delete_fails fl); simpl.
    + by rewrite lookup_insert_ne.
    + rewrite lookup_delete_ne by done. by rewrite lookup_insert_ne.
  - destruct (update_fails fl); [done|].
    destruct (view c !! bk_id book); [|done]. simpl.
    by rewrite lookup_insert_ne.
Qed.

(** X18: An update session works on the book it was opened for and on no other:
    whatever the operator answers and whatever the engine refuses, every
    other record is afterwards what it was. *)
Theorem update_loop_other_records steps book w j r :
  view (db w) !! j = Some r → j ≠ bk_id book →
  view (db (update_loop steps book w).2) !! j = Some r.
Proof.
  revert book w. induction steps as [|st steps IH]; intros book w Hr Hj.
  - done.
  - simpl. run_m.
    set (w1 := mkWorld (db w) (console w ++ [Details book])).
    destruct (process_update_choice_staged (choice st) book (inputs st) w1)
      as (Hdb & Hok & _).
    change (db w1) with (db w) in *.
    destruct (_process_update_choice (choice st) book (inputs st) w1)
      as [[u|] w2]; simpl in *.
    + destruct (is_empty u).
      * apply IH; simpl; by rewrite ?Hdb.
      * destruct (apply_updates_refines (step_faults st) (step_time st)
                    (bk_id book) u w2) as [_ Hv].
        set (w3 := (_apply_updates _ _ _ u w2).2) in *.
        destruct (apply_updates_other (step_faults st) (step_time st)
                    book u (db w) j r (Hok u eq_refl) Hj Hr) as [Hr3 Hn].
        destruct (get_book _ (db w3)) as [b|] eqn:Eb; simpl.
        -- apply IH; [by rewrite Hv, Hdb|].
           by rewrite (get_book_id _ _ _ Eb).
        -- by rewrite Hv, Hdb.
    + apply IH; by rewrite ?Hdb.
Qed.

Lemma update_loop_other_records_witness :
  let steps := [mkStep ChAll
                  (mkInputs (Typed 5) "Persuasion" "Jane Austen" (Typed 1)
                     (Typed (3 # 1))) t1 no_faults] in
  view (db (update_loop steps
              (mkBook 2 "Dune" "Frank Herbert" 7 (8 # 1) t0 t0)
              (start store_novels)).2) !! 1
  = Some (mkRow "Emma" "Jane Austen" 4 (12 # 1) t0 t0).
Proof.
  intros steps.
  apply (update_loop_other_records steps
           (mkBook 2 "Dune" "Frank Herbert" 7 (8 # 1) t0 t0)
           (start store_novels) 1); [reflexivity|simpl; lia].
Defined.

(** X19: The combined check cannot fail: [_process_update_choice] never returns
    [None], so the branch "validation failed, try again" of [update_book]
    is never taken; and staging changes nothing in the store. *)
Theorem process_update_choice_total ch book inp w :
  is_Some (_process_update_choice ch book inp w).1
  ∧ db (_process_update_choice ch book inp w).2 = db w.
Proof.
  by destruct (process_update_choice_staged ch book inp w) as (? & _ & ?).
Qed.






End manager_more.

(** * The add, delete and search forms *)

Section forms.
Import BookDatabase BookManager.
Implicit Types (c : Conn) (w : World) (u : Updates) (book : Book).

(** X23: The add form, filled in well: for a positive, free id, a title and an
    author that are not blank and not "x" and for which the duplicate
    query finds no record, and a quantity and a price that are not
    negative (id and quantity within the 64 bits of an SQLite integer),
    the book is added with the title and the author stripped and both
    dates set to [now]; the form reports "added" and no other record
    changes. *)
Theorem add_form_adds now inp w i q p :
  in_id inp = Typed i → 0 < i → int64 i → view (db w) !! i = None →
  Text.is_x (in_title inp) = false → blank (in_title inp) = false →
  Text.is_x (in_author inp) = false → blank (in_author inp) = false →
  is_duplicate_title_author (Text.strip (in_title inp))
    (Text.strip (in_author inp)) None (db w) = false →
  in_quantity inp = Typed q → 0 ≤ q → int64 q →
  in_price inp = Typed p → Qle_bool 0 p = true →
  let out := add_book_pass now false inp w in
  out.1 = Finished
  ∧ console out.2 = console w ++ [Added]
  ∧ get_book i (db out.2) =
    Some (mkBook i (Text.strip (in_title inp)) (Text.strip (in_author inp))
            q p now now)
  ∧ ∀ j, j ≠ i → get_book j (db out.2) = get_book j (db w).
Proof.
  intros Hid Hpos _ Hfree Hxt Hbt Hxa Hba Hdup Hq Hq0 _ Hp Hp0.
  unfold add_book_pass. rewrite Hid. simpl.
  rewrite bool_decide_eq_true_2 by lia. simpl. run_m.
  assert (_validate_id i None (db w) = None) as ->.
  { apply validate_id_facts. split; [done|by left]. }
  rewrite Hxt, Hxa, !validate_text_blank, Hbt, Hba. unfold _validate_duplicate.
  rewrite Hdup, Hq. simpl. rewrite bool_decide_eq_true_2 by done. simpl.
  unfold _validate_quantity. rewrite bool_decide_eq_false_2 by lia.
  rewrite Hp. unfold _validate_price. rewrite Hp0. simpl.
  rewrite !view_implicit_begin, Hfree. simpl.
  split; [done|]. split; [done|]. unfold get_book.
  rewrite view_commit, view_write. split.
  - by rewrite lookup_insert_eq.
  - intros j Hj. by rewrite lookup_insert_ne.
Qed.

Lemma add_form_adds_witness :
  let inp := mkInputs (Typed 3006) " Emma " "Jane Austen" (Typed 0)
               (Typed (0 # 1)) in
  let w := start (_setup t0 (open_conn ∅)) in
  let out := add_book_pass t1 false inp w in
  out.1 = Finished
  ∧ console out.2 = console w ++ [Added]
  ∧ get_book 3006 (db out.2) =
    Some (mkBook 3006 "Emma" "Jane Austen" 0 (0 # 1) t1 t1)
  ∧ ∀ j, j ≠ 3006 → get_book j (db out.2) = get_book j (db w).
Proof.
  intros inp w.
  apply (add_form_adds t1 inp w 3006 0 (0 # 1));
    try reflexivity; try lia; unfold int64; lia.
Defined.

(** X24: The add form changes no record that exists, whatever is typed and
    whether or not the INSERT is refused. *)
Theorem add_form_keeps_records now fault forms w i r :
  view (db w) !! i = Some r →
  view (db (BookManager.add_book now fault forms w).2) !! i = Some r.
Proof.
  revert w. induction forms as [|inp rest IH]; intros w Hr; [done|].
  simpl. run_m.
  assert (view (db (add_book_pass now fault inp w).2) !! i = Some r) as H1.
  { unfold add_book_pass.
    destruct (in_id inp) as [| |id_val]; run_m; [done..|].
    destruct (bool_decide (0 ≤ id_val)); run_m; [|done].
    destruct (_validate_id id_val None (db w)); run_m; [done|].
    destruct (Text.is_x (in_title inp)); run_m; [done|].
    destruct (_validate_text (in_title inp)); run_m; [done|].
    destruct (Text.is_x (in_author inp)); run_m; [done|].
    destruct (_validate_text (in_author inp)); run_m; [done|].
    destruct (_validate_duplicate _ _ None (db w)); run_m; [done|].
    destruct (in_quantity inp) as [| |qty]; run_m; [done..|].
    destruct (bool_decide (0 ≤ qty)); run_m; [|done].
    destruct (_validate_quantity qty); run_m; [done|].
    destruct (in_price inp) as [| |p]; run_m; [done..|].
    destruct (_validate_price p); run_m; [done|].
    match goal with
    | |- context [BookDatabase.add_book ?d now fault (db w)] =>
        pose proof (add_book_untouched d now fault (db w) i r Hr) as Hk;
        destruct (BookDatabase.add_book d now fault (db w)) as [[] c']
    end; done. }
  destruct (add_book_pass now fault inp w) as [[] w1]; simpl in *;
    [by apply IH|done].
Qed.

Lemma add_form_keeps_records_witness :
  view (db (BookManager.add_book t1 false
              [mkInputs (Typed 1) "Persuasion" "Jane Austen" (Typed 1)
                 (Typed (1 # 1));
               mkInputs (Typed 5) "Persuasion" "Jane Austen" (Typed 1)
                 (Typed (1 # 1))]
              (start store_novels)).2) !! 1
  = Some (mkRow "Emma" "Jane Austen" 4 (12 # 1) t0 t0).
Proof.
  apply (add_form_keeps_records t1 false _ (start store_novels) 1).
  reflexivity.
Defined.





(** X27: The quantity prompt never answers "Quantity must be 0 or more": a
    negative number is not made of digits, so it is turned down as not
    being a number before [_validate_quantity] is asked.  The handler
    stages a quantity exactly when a number that is not negative and is
    not the current quantity was typed; it never touches the store. *)
Theorem quantity_prompt_never_says_negative book u a w :
  let out := _handle_quantity_update book u a w in
  ∃ l, out.2 = mkWorld (db w) (console w ++ l)
       ∧ (Invalid NegativeQuantity ∉ l)
       ∧ (out.1.1 = true ↔
          ∃ q, a = Typed q ∧ 0 ≤ q ∧ q ≠ bk_quantity book
               ∧ out.1.2 = set_quantity q u).
Proof.
  unfold _handle_quantity_update. destruct a as [| |q]; simpl.
  - exists []. rewrite app_nil_r. split; [by destruct w|].
    split; [apply not_elem_of_nil|]. split; [done|]. by intros (? & ? & _).
  - exists [NotANumber FQuantity]. split; [done|].
    split; [by intros [=]%list_elem_of_singleton|].
    split; [done|]. by intros (? & ? & _).
  - case_bool_decide as Hq; simpl.
    + case_bool_decide as Hc; run_m.
      * exists [Unchanged FQuantity]. split; [done|].
        split; [by intros [=]%list_elem_of_singleton|].
        split; [done|]. intros (? & [= <-] & _ & ? & _). done.
      * unfold _validate_quantity. rewrite bool_decide_eq_false_2 by lia.
        run_m. exists []. rewrite app_nil_r. split; [by destruct w|].
        split; [apply not_elem_of_nil|]. split; [|done].
        intros _. by exists q.
    + exists [NotANumber FQuantity]. split; [done|].
      split; [by intros [=]%list_elem_of_singleton|].
      split; [done|]. intros (? & [= <-] & ? & _). done.
Qed.

Lemma display_books_console books w :
  (_display_books books w).2 = mkWorld (db w) (console w ++ (Details <$> books)).
Proof.
  revert w. induction books as [|b books IH]; intros w; simpl.
  - rewrite app_nil_r. by destruct w.
  - run_m. rewrite IH. simpl. by rewrite <- app_assoc.
Qed.

Lemma show_results_world f w :
  (show_results f w).2 =
  mkWorld (db w)
    (console w ++ match BookDatabase.search_books f (db w) with
                  | [] => [NotFound]
                  | l => Details <$> l
                  end).
Proof.
  unfold show_results. run_m.
  destruct (BookDatabase.search_books f (db w)) as [|b l] eqn:E; [done|].
  by rewrite display_books_console.
Qed.

(** Searching and viewing only read: whatever is typed in the search form,
    the connection is afterwards what it was; so it is after
    [view_inventory]. *)
Lemma search_and_view_read_only script w :
  db (BookManager.search_books script w).2 = db w
  ∧ db (view_inventory w).2 = db w.
Proof.
  split.
  - revert w. induction script as [|q rest IH]; intros w; [done|]. simpl.
    destruct (read_query q) as [f|[fld|]]; run_m.
    + rewrite IH. by rewrite show_results_world.
    + by rewrite IH.
    + apply IH.
  - unfold view_inventory. run_m.
    destruct (get_all_books (db w)) as [|b l]; [done|].
    by rewrite display_books_console.
Qed.



(** [view_inventory] shows one row per record of the table, and "not
    found" for an empty table. *)
Lemma view_inventory_console w :
  console (view_inventory w).2 =
  console w ++ (if decide (view (db w) = ∅) then [NotFound]
                else Details <$> get_all_books (db w)).
Proof.
  unfold view_inventory. run_m.
  destruct (get_all_books (db w)) as [|b l] eqn:E.
  - rewrite decide_True; [done|]. unfold get_all_books in E.
    apply fmap_nil_inv in E. by apply map_to_list_empty_iff.
  - rewrite decide_False.
    + by rewrite display_books_console.
    + intros He. unfold get_all_books in E.
      by rewrite He, map_to_list_empty in E.
Qed.

End forms.
